(** * Kapacitor: the Pushover service, its test double, and the server
      behaviours that [server/server_test.go] exercises

    The sources at hand are [services/pushover] (its service file),
    [services/pushover/pushovertest] and the tests of the server. The
    first two are embedded from their code:
    - [Strconv]: the functions of Go's [strconv] that the code calls;
    - [AlertLevel]: the levels of the [alert] package;
    - [Pushover]: [postData], [Values], [priority], [preparePost], [Alert];
    - [Pushovertest]: [PostData], [NewPostData].
    The server itself is known through its tests and its specification
    only, and is modelled from the latter:
    - [ID]: resource identifiers;
    - [Pipeline], [Render]: the data-flow runtime and the documents of
      [httpOut];
    - [TICK]: scripts, variables, templates;
    - [Server], [Requests], [Counts], [Endpoints]: the task manager, the
      topic store, the control plane and what its theorems speak about;
    - [JSON], [Handlers]: JSON Patch and the alert handlers;
    - [Scenarios]: the data of the tests. *)

From Stdlib Require Import ZArith QArith Lia Ascii String List.
From stdpp Require Import base gmap strings list fin_maps.

Local Open Scope string_scope.
Local Open Scope list_scope.
Local Open Scope Z_scope.

(** ** Go's [strconv.Itoa] and [strconv.Atoi] on a 64-bit [int] *)
Module Strconv.

(** [strconv.IntSize] on the 64-bit platforms the server is built for. *)
Definition intSize : Z := 64.
Definition minInt : Z := - 2 ^ (intSize - 1).
Definition maxInt : Z := 2 ^ (intSize - 1) - 1.

(** The values of Go's [int]. *)
Definition is_int (n : Z) : Prop := minInt <= n <= maxInt.

Definition digit_char (d : Z) : ascii := ascii_of_nat (48 + Z.to_nat d).

(** [formatBits] for base 10: digits are produced from the least
    significant one, each written in front of the ones already there.
    The fuel bounds the number of digits; 20 covers every [uint64]. *)
Fixpoint format_digits (fuel : nat) (u : Z) (acc : string) : string :=
  match fuel with
  | O => acc
  | S fuel' =>
      let acc' := String (digit_char (u mod 10)) acc in
      if u <? 10 then acc' else format_digits fuel' (u / 10) acc'
  end.

Definition max_digits : nat := 20.

(** [func Itoa(i int) string]: [FormatInt(int64(i), 10)]. *)
Definition Itoa (i : Z) : string :=
  if i <? 0 then String "-" (format_digits max_digits (- i) "")
  else format_digits max_digits i "".

Inductive NumError : Type :=
| ErrSyntax (fn input : string)
| ErrRange (fn input : string).

(** The value of a byte as a decimal digit, when it is one. *)
Definition digit_val (c : ascii) : option Z :=
  let n := Z.of_nat (nat_of_ascii c) in
  if (48 <=? n) && (n <=? 57) then Some (n - 48) else None.

(** The digit loop of [ParseUint] in base 10, with the accumulator
    unbounded; the range checks are made by the callers below. *)
Fixpoint parse_digits (s : string) (acc : Z) : option Z :=
  match s with
  | EmptyString => Some acc
  | String c s' =>
      match digit_val c with
      | Some d => parse_digits s' (acc * 10 + d)
      | None => None
      end
  end.

(** [func ParseInt(s string, 10, 0) (int64, error)]: the value returned
    together with a range error is the nearest bound. *)
Definition ParseInt (fn s : string) : Z * option NumError :=
  match s with
  | EmptyString => (0, Some (ErrSyntax fn s))
  | String c rest =>
      let neg := Ascii.eqb c "-" in
      let body := if Ascii.eqb c "+" || neg then rest else s in
      match body with
      | EmptyString => (0, Some (ErrSyntax fn s))
      | _ =>
          match parse_digits body 0 with
          | None => (0, Some (ErrSyntax fn s))
          | Some un =>
              let cutoff := 2 ^ (intSize - 1) in
              if negb neg && (cutoff <=? un) then (cutoff - 1, Some (ErrRange fn s))
              else if neg && (cutoff <? un) then (- cutoff, Some (ErrRange fn s))
              else (if neg then - un else un, None)
          end
      end
  end.

(** [func Atoi(s string) (int, error)]. *)
Definition Atoi (s : string) : Z * option NumError := ParseInt "Atoi" s.

End Strconv.

(** ** The alert levels *)
Module AlertLevel.

(** Modelled from the spec: [alert.Level] is declared in the [alert]
    package, which is not among the sources; the spec (§3) gives its four
    values, level ∈ {OK, INFO, WARNING, CRITICAL}, in rising order. *)
Inductive Level : Type := OK | Info | Warning | Critical.


End AlertLevel.

(** ** [services/pushover] *)
Module Pushover.
Import Strconv AlertLevel.

(** Modelled from the spec: the [Config] struct of this package is declared
    in a file that is not among the sources; these are the four fields
    that [preparePost] reads. *)
Record Config : Type := mkConfig {
  Enabled : bool;
  Token : string;
  User : string;
  URL : string
}.

(** [url.Values] of [net/url]: [map[string][]string]. *)
Abbreviation Values := (gmap string (list string)).

(** [func (v Values) Set(key, value string)]. *)
Definition Values_Set (key value : string) (v : Values) : Values :=
  <[key := [value]]> v.

(** [func (v Values) Get(key string) string]: the first value of the key,
    the empty string when there is none. *)
Definition Values_Get (v : Values) (key : string) : string :=
  match v !! key with
  | Some (x :: _) => x
  | _ => ""
  end.

Definition is_empty (s : string) : bool :=
  match s with EmptyString => true | _ => false end.

Section WithTime.
(** [time.Time] and its [String] method are the standard library's. *)
Context {Time : Type} (Time_String : Time -> string).

Record postData : Type := mkPostData {
  pd_Token : string;
  pd_User : string;
  pd_Message : string;
  pd_Device : string;
  pd_Title : string;
  pd_URL : string;
  pd_URLTitle : string;
  pd_Priority : Z;
  pd_Timestamp : option Time;
  pd_Sound : string
}.

Definition set_if_nonempty (key value : string) (v : Values) : Values :=
  if is_empty value then v else Values_Set key value v.

(** [func (p *postData) Values() url.Values]. *)
Definition Values_of (p : postData) : Values :=
  let v : Values := ∅ in
  let v := Values_Set "token" (pd_Token p) v in
  let v := Values_Set "user" (pd_User p) v in
  let v := Values_Set "message" (pd_Message p) v in
  let v := Values_Set "priority" (Itoa (pd_Priority p)) v in
  let v := set_if_nonempty "device" (pd_Device p) v in
  let v := set_if_nonempty "title" (pd_Title p) v in
  let v := set_if_nonempty "url" (pd_URL p) v in
  let v := set_if_nonempty "url_title" (pd_URLTitle p) v in
  let v := set_if_nonempty "sound" (pd_Sound p) v in
  match pd_Timestamp p with
  | Some t => Values_Set "timestamp" (Time_String t) v
  | None => v
  end.

(** [func priority(level alert.Level) int]. The [return 0] that ends the
    source is for a value outside the four levels. *)
Definition priority (level : Level) : Z :=
  match level with
  | OK => -2
  | Info => -1
  | Warning => 1
  | Critical => 2
  end.

(** [func (s *Service) preparePost(...) (string, url.Values, error)].
    The service is its stored configuration ([s.config()]); the result
    of [time.Now()] is the argument [now]. *)
Definition preparePost (c : Config) (now : Time)
    (user message device title URL' URLTitle sound : string)
    (timestamp : bool) (level : Level) : string * Values * option string :=
  if negb (Enabled c) then ("", ∅, Some "service is not enabled")
  else
    let p := {| pd_Token := Token c;
                pd_User := if is_empty user then User c else user;
                pd_Message := message;
                pd_Device := device;
                pd_Title := title;
                pd_URL := URL';
                pd_URLTitle := URLTitle;
                pd_Priority := priority level;
                pd_Timestamp := if timestamp then Some now else None;
                pd_Sound := sound |} in
    (URL c, Values_of p, None).

(** What [http.PostForm] hands back: a transport error, or a response
    with its status code and the outcome of reading its body. *)
Record Response : Type := mkResponse {
  StatusCode : Z;
  Body : string + string   (* inl: the bytes read; inr: the read error *)
}.

(** The outside world of [Alert]: the HTTP client, and [encoding/json]
    decoding [{"error": ...}] out of a response body (None when the body
    carries no such field, which leaves the default message in place). *)
Context (http_PostForm : string -> Values -> Response + string)
        (json_error_field : string -> option string).

(** [func (s *Service) Alert(...) error], together with the list of the
    HTTP requests it performed. *)
Definition Alert (c : Config) (now : Time)
    (user message device title URL' URLTitle sound : string)
    (timestamp : bool) (level : Level) : list (string * Values) * option string :=
  match preparePost c now user message device title URL' URLTitle sound timestamp level with
  | (_, _, Some err) => ([], Some err)
  | (url, post, None) =>
      match http_PostForm url post with
      | inr err => ([(url, post)], Some err)
      | inl resp =>
          if StatusCode resp =? 200 then ([(url, post)], None)
          else
            match Body resp with
            | inr err => ([(url, post)], Some err)
            | inl body =>
                let dflt := "failed to understand Slack response. code: "
                            +:+ Itoa (StatusCode resp) +:+ " content: " +:+ body in
                ([(url, post)], Some (default dflt (json_error_field body)))
            end
      end
  end.

End WithTime.

Arguments postData : clear implicits.
Arguments mkPostData {Time}.
End Pushover.

(** ** [services/pushover/pushovertest] *)
Module Pushovertest.
Import Strconv Pushover.

Record PostData : Type := mkPostData {
  Token : string;
  User : string;
  Message : string;
  Device : string;
  Title : string;
  URL : string;
  URLTitle : string;
  Sound : string;
  Timestamp : string;
  Priority : Z
}.

(** [func NewPostData(v url.Values) (PostData, error)]: when [Atoi] fails
    the data is returned with [Priority] still zero. *)
Definition NewPostData (v : Values) : PostData * option NumError :=
  let p := {| Token := Values_Get v "token";
              User := Values_Get v "user";
              Message := Values_Get v "message";
              Device := Values_Get v "device";
              Title := Values_Get v "title";
              URL := Values_Get v "url";
              URLTitle := Values_Get v "url_title";
              Sound := Values_Get v "sound";
              Timestamp := Values_Get v "timestamp";
              Priority := 0 |} in
  match Atoi (Values_Get v "priority") with
  | (_, Some err) => (p, Some err)
  | (priority, None) =>
      ({| Token := Token p; User := User p; Message := Message p;
          Device := Device p; Title := Title p; URL := URL p;
          URLTitle := URLTitle p; Sound := Sound p;
          Timestamp := Timestamp p; Priority := priority |}, None)
  end.

End Pushovertest.

(** ** Resource identifiers

    Modelled from the spec: the server's id validation is not among the
    sources (only [server_test.go] is). The spec (§3, §6) requires an id to
    match [[\p{L}\p{N}._-]+]; Go's [regexp] reads a string as the sequence
    of runes of its UTF-8 decoding, an undecodable byte counting as
    U+FFFD. *)
Module ID.

Definition RuneError : Z := 0xFFFD.

(** The double quote character. *)
Definition dquote : ascii := ascii_of_nat 34.

Definition byte_val (c : ascii) : Z := Z.of_nat (nat_of_ascii c).

Definition between (lo hi b : Z) : bool := (lo <=? b) && (b <=? hi).

(** The payload of a continuation byte. *)
Definition cont (b : Z) : Z := Z.land b 0x3F.

(** What a leading byte above 0x7F announces: how many bytes follow, the
    range the first of them must lie in, and the bits it contributes. *)
Definition lead (b0 : Z) : option (nat * Z * Z * Z) :=
  if between 0xC2 0xDF b0 then Some (1%nat, 0x80, 0xBF, Z.land b0 0x1F)
  else if b0 =? 0xE0 then Some (2%nat, 0xA0, 0xBF, Z.land b0 0x0F)
  else if b0 =? 0xED then Some (2%nat, 0x80, 0x9F, Z.land b0 0x0F)
  else if between 0xE1 0xEF b0 then Some (2%nat, 0x80, 0xBF, Z.land b0 0x0F)
  else if b0 =? 0xF0 then Some (3%nat, 0x90, 0xBF, Z.land b0 0x07)
  else if b0 =? 0xF4 then Some (3%nat, 0x80, 0x8F, Z.land b0 0x07)
  else if between 0xF1 0xF3 b0 then Some (3%nat, 0x80, 0xBF, Z.land b0 0x07)
  else None.

(** The runes of a string ([utf8.DecodeRuneInString] applied until the
    string is used up): an invalid or truncated encoding yields
    [RuneError] and consumes one byte. *)
Fixpoint runes (s : string) : list Z :=
  match s with
  | EmptyString => []
  | String c0 s1 =>
      let b0 := byte_val c0 in
      if b0 <? 0x80 then b0 :: runes s1
      else
        match lead b0 with
        | Some (1%nat, lo, hi, bits) =>
            match s1 with
            | String c1 s2 =>
                if between lo hi (byte_val c1)
                then Z.lor (Z.shiftl bits 6) (cont (byte_val c1)) :: runes s2
                else RuneError :: runes s1
            | _ => RuneError :: runes s1
            end
        | Some (2%nat, lo, hi, bits) =>
            match s1 with
            | String c1 (String c2 s3) =>
                if between lo hi (byte_val c1) && between 0x80 0xBF (byte_val c2)
                then Z.lor (Z.shiftl bits 12)
                       (Z.lor (Z.shiftl (cont (byte_val c1)) 6) (cont (byte_val c2)))
                     :: runes s3
                else RuneError :: runes s1
            | _ => RuneError :: runes s1
            end
        | Some (3%nat, lo, hi, bits) =>
            match s1 with
            | String c1 (String c2 (String c3 s4)) =>
                if between lo hi (byte_val c1) && between 0x80 0xBF (byte_val c2)
                   && between 0x80 0xBF (byte_val c3)
                then Z.lor (Z.shiftl bits 18)
                       (Z.lor (Z.shiftl (cont (byte_val c1)) 12)
                          (Z.lor (Z.shiftl (cont (byte_val c2)) 6) (cont (byte_val c3))))
                     :: runes s4
                else RuneError :: runes s1
            | _ => RuneError :: runes s1
            end
        | _ => RuneError :: runes s1
        end
  end.

(** The letters ([\p{L}]) and numbers ([\p{N}]) of Latin-1. *)
Definition latin1_letter (r : Z) : bool :=
  between 0x41 0x5A r || between 0x61 0x7A r
  || (r =? 0xAA) || (r =? 0xB5) || (r =? 0xBA)
  || between 0xC0 0xD6 r || between 0xD8 0xF6 r || between 0xF8 0xFF r.

Definition latin1_number (r : Z) : bool :=
  between 0x30 0x39 r || (r =? 0xB2) || (r =? 0xB3) || (r =? 0xB9)
  || between 0xBC 0xBE r.

Section Tables.
(** The Unicode tables of the categories L and N above U+00FF. *)
Context (unicode_L unicode_N : Z -> bool).

Definition is_letter (r : Z) : bool :=
  if r <=? 0xFF then latin1_letter r else unicode_L r.

Definition is_number (r : Z) : bool :=
  if r <=? 0xFF then latin1_number r else unicode_N r.

(** The character class [[\p{L}\p{N}._-]]. *)
Definition id_rune (r : Z) : bool :=
  is_letter r || is_number r || (r =? 0x2E) || (r =? 0x5F) || (r =? 0x2D).

(** The whole id matches [[\p{L}\p{N}._-]+]. *)
Definition valid_id (id : string) : bool :=
  match runes id with
  | [] => false
  | rs => forallb id_rune rs
  end.
End Tables.

(** The message of a rejected id, for a resource of the given kind. *)
Definition invalid_id_message (kind id : string) : string :=
  kind +:+ " ID must contain only letters, numbers, '-', '.' and '_'. "
       +:+ String dquote (id +:+ String dquote "").

End ID.


(** ** The data-flow runtime of a task

    Modelled from the spec: the execution runtime is not among the sources.
    What follows is §3 (Point, Window, EventState) and §4.3 (operators) of
    the spec for a task that is a chain of operators over one group:
    [from], [window], [count], [httpOut] and [alert]. Floating-point field
    values are rationals; the model compares them and never computes with
    them. *)
Module Pipeline.
Import Strconv AlertLevel.

Inductive FieldValue : Type :=
| FFloat (q : Q)
| FInt (z : Z)
| FString (s : string)
| FBool (b : bool).

(** A point; [Time] is in nanoseconds since the epoch. *)
Record Point : Type := mkPoint {
  Name : string;
  Tags : list (string * string);
  Fields : list (string * FieldValue);
  Time : Z
}.

(** A batch: a bounded table, with the end of the span it covers. *)
Record Batch : Type := mkBatch {
  BName : string;
  BTags : list (string * string);
  TMax : Z;
  Points : list Point
}.

(** What an edge carries. *)
Inductive Message : Type :=
| MPoint (p : Point)
| MBatch (b : Batch).

Definition second : Z := 1000000000.

Fixpoint lookup_field (name : string) (fs : list (string * FieldValue)) : option FieldValue :=
  match fs with
  | [] => None
  | (k, v) :: fs' => if String.eqb k name then Some v else lookup_field name fs'
  end.

(** *** Lambda expressions *)

Inductive CmpOp : Type := Lt | Le | Gt | Ge | Eq | Ne.

Inductive Lambda : Type :=
| LCmp (field : string) (op : CmpOp) (c : Q)
| LAnd (a b : Lambda)
| LOr (a b : Lambda).

Definition compare_Q (op : CmpOp) (x c : Q) : bool :=
  match op with
  | Lt => negb (Qle_bool c x)
  | Le => Qle_bool x c
  | Gt => negb (Qle_bool x c)
  | Ge => Qle_bool c x
  | Eq => Qeq_bool x c
  | Ne => negb (Qeq_bool x c)
  end.

(** A reference to a field the point lacks (or that is no number) is null,
    and a comparison with null does not hold. *)
Fixpoint eval_lambda (l : Lambda) (p : Point) : bool :=
  match l with
  | LCmp field op c =>
      match lookup_field field (Fields p) with
      | Some (FFloat x) => compare_Q op x c
      | Some (FInt z) => compare_Q op (inject_Z z) c
      | _ => false
      end
  | LAnd a b => eval_lambda a p && eval_lambda b p
  | LOr a b => eval_lambda a p || eval_lambda b p
  end.

Definition triggers (l : option Lambda) (p : Point) : bool :=
  match l with
  | Some e => eval_lambda e p
  | None => false
  end.

(** *** Operators *)

Record AlertConfig : Type := mkAlertConfig {
  a_id : string;
  a_message : string;
  a_details : string;
  a_info : option Lambda;
  a_warn : option Lambda;
  a_crit : option Lambda
}.

Inductive Node : Type :=
| FromNode (measurement : string)
| WindowNode (period every : Z)
| CountNode (field : string)
| HTTPOutNode (endpoint : string)
| AlertNode (cfg : AlertConfig).

Record EventState : Type := mkEventState {
  es_message : string;
  es_details : string;
  es_time : Z;
  es_duration : Z;
  es_level : Level
}.

(** The state an operator keeps between two elements. *)
Inductive NodeState : Type :=
| StNone
| StWindow (buf : list Point) (next : option Z)
| StHTTPOut (latest : option Message)
| StAlert (raised : option (Level * Z)).

Definition init_state (n : Node) : NodeState :=
  match n with
  | WindowNode _ _ => StWindow [] None
  | HTTPOutNode _ => StHTTPOut None
  | AlertNode _ => StAlert None
  | _ => StNone
  end.

(** [window]: the points whose time lies in [(end - period, end]]. *)
Definition in_window (period end_ : Z) (p : Point) : bool :=
  (end_ - period <? Time p) && (Time p <=? end_).

(** The batch of the boundary [end_]; an empty one is not emitted. *)
Definition window_batch (name : string) (period end_ : Z) (buf : list Point) : list Message :=
  match List.filter (in_window period end_) buf with
  | [] => []
  | ps => [MBatch {| BName := name; BTags := []; TMax := end_; Points := ps |}]
  end.

(** The boundaries passed when the time of the stream gets to [now]:
    [next], [next + every], ... as long as they lie before [now]. A boundary
    is passed by a later point only, since a point at the boundary itself
    still belongs to the batch that ends there. *)
Definition boundaries (next every now : Z) : list Z :=
  if now <=? next then []
  else List.map (fun k => next + Z.of_nat k * every)
         (List.seq 0 (Z.to_nat ((now - next - 1) / every + 1))).

(** [window(period, every)] on the arrival of a point: a batch is emitted
    for each boundary the point has passed, and the points too old for the
    next boundary are forgotten. The first boundary lies [every] after the
    first point. *)
Definition window_step (period every : Z) (buf : list Point) (next : option Z)
    (p : Point) : NodeState * list Message :=
  let next0 := match next with Some n => n | None => Time p + every end in
  let buf' := buf ++ [p] in
  let ends := boundaries next0 every (Time p) in
  let next' := next0 + Z.of_nat (length ends) * every in
  (StWindow (List.filter (fun q => next' - period <? Time q) buf') (Some next'),
   List.concat (List.map (fun e => window_batch (Name p) period e buf') ends)).

Definition has_field (field : string) (p : Point) : bool :=
  match lookup_field field (Fields p) with Some _ => true | None => false end.

(** [count(field)]: one point per batch, stamped with the end of the
    batch and carrying the tags of the group. *)
Definition count_batch (field : string) (b : Batch) : Point :=
  {| Name := BName b;
     Tags := BTags b;
     Fields := [("count", FInt (Z.of_nat (length (List.filter (has_field field) (Points b)))))];
     Time := TMax b |}.

(** [alert()]: crit, warn and info are tried in this order and the first
    that triggers gives the level; when none does the level is OK, which
    is an event only if the alert was raised. [raised] holds the level of
    a raised alert and the time at which it left OK. *)
Definition alert_level (cfg : AlertConfig) (p : Point) : Level :=
  if triggers (a_crit cfg) p then Critical
  else if triggers (a_warn cfg) p then Warning
  else if triggers (a_info cfg) p then Info
  else OK.

Definition alert_step (cfg : AlertConfig) (raised : option (Level * Z)) (p : Point)
    : NodeState * list (string * EventState) :=
  let since := match raised with Some (_, t) => t | None => Time p end in
  let ev l := (a_id cfg, {| es_message := a_message cfg; es_details := a_details cfg;
                            es_time := Time p; es_duration := Time p - since;
                            es_level := l |}) in
  match alert_level cfg p with
  | OK =>
      match raised with
      | Some _ => (StAlert None, [ev OK])
      | None => (StAlert None, [])
      end
  | l => (StAlert (Some (l, since)), [ev l])
  end.

(** One operator on one element: its new state, what it sends on, and the
    events it raises. An element of the wrong edge type is dropped. *)
Definition node_step (n : Node) (st : NodeState) (m : Message)
    : NodeState * list Message * list (string * EventState) :=
  match n, m with
  | FromNode measurement, MPoint p =>
      (st, if String.eqb (Name p) measurement then [m] else [], [])
  | WindowNode period every, MPoint p =>
      match st with
      | StWindow buf next => (window_step period every buf next p, [])
      | _ => (window_step period every [] None p, [])
      end
  | CountNode field, MBatch b => (st, [MPoint (count_batch field b)], [])
  | HTTPOutNode _, _ => (StHTTPOut (Some m), [m], [])
  | AlertNode cfg, MPoint p =>
      let '(st', evs) :=
        alert_step cfg (match st with StAlert r => r | _ => None end) p in
      (st', [m], evs)
  | _, _ => (st, [], [])
  end.

(** An operator on the elements that reach it, in order. *)
Fixpoint node_run (n : Node) (st : NodeState) (ms : list Message)
    : NodeState * list Message * list (string * EventState) :=
  match ms with
  | [] => (st, [], [])
  | m :: ms' =>
      let '(st1, out1, ev1) := node_step n st m in
      let '(st2, out2, ev2) := node_run n st1 ms' in
      (st2, out1 ++ out2, ev1 ++ ev2)
  end.

(** An event with the ordinal of the node that raised it. *)
Definition tag_events (ordinal : Z) (evs : list (string * EventState))
    : list (Z * string * EventState) :=
  List.map (fun '(id, es) => (ordinal, id, es)) evs.

(** The chain of operators of a task: what leaves one enters the next.
    The source ([stream]) is node 0, so the chain starts at [ordinal] 1. *)
Fixpoint chain_run (ordinal : Z) (ns : list Node) (sts : list NodeState) (ms : list Message)
    : list NodeState * list Message * list (Z * string * EventState) :=
  match ns with
  | [] => ([], ms, [])
  | n :: ns' =>
      let st := match sts with s :: _ => s | [] => init_state n end in
      let '(st', out, evs) := node_run n st ms in
      let '(sts', final, evs') := chain_run (ordinal + 1) ns' (List.tl sts) out in
      (st' :: sts', final, tag_events ordinal evs ++ evs')
  end.

End Pipeline.


(** ** The JSON document behind an [httpOut] endpoint

    Modelled from the spec: the server's encoder is not among the sources.
    The shape of the document is the one the spec gives in §8 (scenario 1)
    and the test reads back: one series with its name, its columns ("time"
    first) and one row of values per point, times in RFC 3339. Strings are
    written between quotes as they are. *)
Module Render.
Import Strconv Pipeline.

(** A string between double quotes. *)
Definition quote (s : string) : string := String ID.dquote (s +:+ String ID.dquote "").







Section Floats.
(** The decimal notation of a floating-point number is the encoder's. *)
Context (format_float : Q -> string).








End Floats.
End Render.


(** ** Scripts, variables and templates

    Modelled from the spec: the TICKscript front end and the DAG compiler
    are not among the sources, and the spec (§1) leaves the lexer and the
    parser out: the core consumes a compiled script. A script is here its
    text together with what the front end makes of it: the variables it
    declares, and its chain of operators as a function of their values. *)
Module TICK.
Import Pipeline.

Inductive VarType : Type :=
| VarBool | VarInt | VarFloat | VarDuration | VarString | VarRegex | VarLambda
| VarList | VarStar.

(** A variable value, the constructor being its type. *)
Inductive Var : Type :=
| BoolVar (b : bool)
| IntVar (z : Z)
| FloatVar (q : Q)
| DurationVar (ns : Z)
| StringVar (s : string)
| RegexVar (s : string)
| LambdaVar (l : Lambda)
| ListVar (l : list string)
| StarVar.

Record VarDecl : Type := mkVarDecl {
  d_name : string;
  d_type : VarType;
  d_default : option Var
}.

Record Script : Type := mkScript {
  text : string;
  decls : list VarDecl;
  body : gmap string Var -> list Node
}.

(** The first declared variable that has neither a default nor a value. *)
Fixpoint missing_var (ds : list VarDecl) (vars : gmap string Var) : option string :=
  match ds with
  | [] => None
  | d :: ds' =>
      match d_default d, vars !! d_name d with
      | None, None => Some (d_name d)
      | _, _ => missing_var ds' vars
      end
  end.

Fixpoint defaults (ds : list VarDecl) : gmap string Var :=
  match ds with
  | [] => ∅
  | d :: ds' =>
      match d_default d with
      | Some v => <[d_name d := v]> (defaults ds')
      | None => defaults ds'
      end
  end.

Definition missing_var_message (name : string) : string :=
  "missing value for var " +:+ Render.quote name +:+ ".".

(** Compiling a script with the values of its variables: a declared
    variable without a value is an error; a given value takes precedence
    over a default. *)
Definition materialize (sc : Script) (vars : gmap string Var) : list Node + string :=
  match missing_var (decls sc) vars with
  | Some name => inr (missing_var_message name)
  | None => inl (body sc (vars ∪ defaults (decls sc)))
  end.

End TICK.


(** ** The task manager, the topic store and the control plane

    Modelled from the spec: the server is not among the sources (only its
    tests are). The state and the operations follow §3 (Task, Template,
    Topic), §4.1 (task manager), §4.5 (topic store) and §6 (persisted
    state) of the spec, and are named after the client calls the tests
    make. The statistics are two counters the operations keep up to date.
    Tasks are kept in the order of their ids. Alert nodes publish to their
    anonymous topic; renaming a task and the grouping of points are left
    out. *)
Module Server.
Import Strconv AlertLevel Pipeline TICK.

Inductive TaskType : Type := StreamTask | BatchTask.

Inductive TaskStatus : Type := Disabled | Enabled.

Record DBRP : Type := mkDBRP {
  Database : string;
  RetentionPolicy : string
}.

(** An error is its message where the spec gives one. *)
Inductive Error : Type :=
| Msg (message : string)
| Conflict (kind id : string)
| NotFound (kind id : string)
| InUse (kind id : string).

Record Task : Type := mkTask {
  ID : string;
  Type_ : TaskType;
  DBRPs : list DBRP;
  script : Script;
  TemplateID : string;
  Vars : gmap string Var;
  Status : TaskStatus;
  nodes : list Node
}.

(** The script text the control plane shows for a task. *)
Definition TICKscript (t : Task) : string := text (script t).

Record Template : Type := mkTemplate {
  tp_ID : string;
  tp_Type : TaskType;
  tp_script : Script
}.

(** The persisted records ([tasks], [templates], [topic_store]), the
    statistics, and what lives only while the server runs: the operator
    states of the executing tasks and the open topics. *)
Record State : Type := mkState {
  tasks : list Task;
  templates : list Template;
  topic_store : gmap string (gmap string EventState);
  NumTasks : Z;
  NumEnabledTasks : Z;
  executing : gmap string (list NodeState);
  topics : gmap string (gmap string EventState)
}.

Definition empty : State :=
  {| tasks := []; templates := []; topic_store := ∅; NumTasks := 0;
     NumEnabledTasks := 0; executing := ∅; topics := ∅ |}.

Definition set_tasks (ts : list Task) (s : State) : State :=
  {| tasks := ts; templates := templates s; topic_store := topic_store s;
     NumTasks := NumTasks s; NumEnabledTasks := NumEnabledTasks s;
     executing := executing s; topics := topics s |}.

Definition set_templates (tps : list Template) (s : State) : State :=
  {| tasks := tasks s; templates := tps; topic_store := topic_store s;
     NumTasks := NumTasks s; NumEnabledTasks := NumEnabledTasks s;
     executing := executing s; topics := topics s |}.

Definition add_counts (dn de : Z) (s : State) : State :=
  {| tasks := tasks s; templates := templates s; topic_store := topic_store s;
     NumTasks := NumTasks s + dn; NumEnabledTasks := NumEnabledTasks s + de;
     executing := executing s; topics := topics s |}.

Definition set_executing (ex : gmap string (list NodeState)) (s : State) : State :=
  {| tasks := tasks s; templates := templates s; topic_store := topic_store s;
     NumTasks := NumTasks s; NumEnabledTasks := NumEnabledTasks s;
     executing := ex; topics := topics s |}.

Definition set_topics (tp st : gmap string (gmap string EventState)) (s : State) : State :=
  {| tasks := tasks s; templates := templates s; topic_store := st;
     NumTasks := NumTasks s; NumEnabledTasks := NumEnabledTasks s;
     executing := executing s; topics := tp |}.

Definition is_enabled (t : Task) : bool :=
  match Status t with Enabled => true | Disabled => false end.

Definition find_task (id : string) (ts : list Task) : option Task :=
  List.find (fun t => String.eqb (ID t) id) ts.

Definition find_template (id : string) (tps : list Template) : option Template :=
  List.find (fun tp => String.eqb (tp_ID tp) id) tps.

Fixpoint insert_task (t : Task) (ts : list Task) : list Task :=
  match ts with
  | [] => [t]
  | u :: ts' => if String.ltb (ID t) (ID u) then t :: ts else u :: insert_task t ts'
  end.

Definition remove_task (id : string) (ts : list Task) : list Task :=
  List.filter (fun t => negb (String.eqb (ID t) id)) ts.

Definition replace_task (t : Task) (ts : list Task) : list Task :=
  List.map (fun u => if String.eqb (ID u) (ID t) then t else u) ts.

(** *** Topics *)

(** The anonymous topic of the alert node [ordinal] of a task. *)
Definition anon_topic (task_id : string) (ordinal : Z) : string :=
  "main:" +:+ task_id +:+ ":alert" +:+ Itoa ordinal.

Fixpoint anon_topics (task_id : string) (ordinal : Z) (ns : list Node) : list string :=
  match ns with
  | [] => []
  | AlertNode _ :: ns' => anon_topic task_id ordinal :: anon_topics task_id (ordinal + 1) ns'
  | _ :: ns' => anon_topics task_id (ordinal + 1) ns'
  end.

(** Starting a task: fresh operator states, and its anonymous topics are
    opened with the events the store holds for them. *)
Definition start (t : Task) (s : State) : State :=
  set_topics
    (List.fold_right (fun name tp => <[name := default ∅ (topic_store s !! name)]> tp)
       (topics s) (anon_topics (ID t) 1 (nodes t)))
    (topic_store s)
    (set_executing (<[ID t := List.map init_state (nodes t)]> (executing s)) s).

(** Stopping a task closes its anonymous topics; the store keeps them. *)
Definition stop (t : Task) (s : State) : State :=
  set_topics
    (List.fold_right (fun name tp => delete name tp) (topics s)
       (anon_topics (ID t) 1 (nodes t)))
    (topic_store s)
    (set_executing (delete (ID t) (executing s)) s).

(** Deleting the anonymous topics of a task purges them from the store. *)
Definition purge (t : Task) (s : State) : State :=
  set_topics
    (List.fold_right (fun name tp => delete name tp) (topics s)
       (anon_topics (ID t) 1 (nodes t)))
    (List.fold_right (fun name tp => delete name tp) (topic_store s)
       (anon_topics (ID t) 1 (nodes t)))
    s.

(** An event overwrites the state its topic holds for the same event id,
    in the open topic and in the store. *)
Definition record_event (task_id : string) (ev : Z * string * EventState) (s : State) : State :=
  let '(ordinal, id, es) := ev in
  let topic := anon_topic task_id ordinal in
  set_topics
    (<[topic := <[id := es]> (default ∅ (topics s !! topic))]> (topics s))
    (<[topic := <[id := es]> (default ∅ (topic_store s !! topic))]> (topic_store s))
    s.

Definition topic_missing_message (topic : string) : string :=
  "topic " +:+ Render.quote topic +:+ " does not exist".

(** The events of a topic, by event id. *)
Definition ListTopicEvents (topic : string) (s : State)
    : list (string * EventState) + Error :=
  match topics s !! topic with
  | Some evs => inl (map_to_list evs)
  | None => inr (Msg (topic_missing_message topic))
  end.

(** *** Writes and reads *)

Definition subscribes (db rp : string) (t : Task) : bool :=
  existsb (fun d => String.eqb (Database d) db && String.eqb (RetentionPolicy d) rp)
    (DBRPs t).

(** One executing stream task takes the points written to one of its
    dbrps through its chain. *)
Definition feed (db rp : string) (ps : list Point) (t : Task) (s : State) : State :=
  match Type_ t, executing s !! ID t with
  | StreamTask, Some sts =>
      if is_enabled t && subscribes db rp t then
        let '(sts', _, evs) := chain_run 1 (nodes t) sts (List.map MPoint ps) in
        List.fold_left (fun s' ev => record_event (ID t) ev s') evs
          (set_executing (<[ID t := sts']> (executing s)) s)
      else s
  | _, _ => s
  end.

(** [POST /write?db=..&rp=..]: every task observes its own copy. *)
Definition Write (db rp : string) (ps : list Point) (s : State) : State :=
  List.fold_left (fun s' t => feed db rp ps t s') (tasks s) s.

Section Encoder.
Context (format_float : Q -> string).

End Encoder.

(** The externally visible statistics. *)
Definition Stats (s : State) : Z * Z := (NumTasks s, NumEnabledTasks s).

(** *** Tasks and templates *)

Record CreateTaskOptions : Type := mkCreateTaskOptions {
  o_ID : string;
  o_TemplateID : string;
  o_Type : TaskType;
  o_DBRPs : list DBRP;
  o_TICKscript : Script;
  o_Status : TaskStatus;
  o_Vars : gmap string Var
}.

(** A patch: the fields that are given replace the task's. *)
Record UpdateTaskOptions : Type := mkUpdateTaskOptions {
  u_TICKscript : option Script;
  u_Status : option TaskStatus;
  u_Vars : option (gmap string Var)
}.

Definition invalid_script_message (reason : string) : string :=
  "invalid TICKscript: " +:+ reason.

Definition reload_message (task_id reason : string) : string :=
  "error reloading associated task " +:+ task_id +:+ ": " +:+ reason.

Definition enabled_count (st : TaskStatus) : Z :=
  match st with Enabled => 1 | Disabled => 0 end.

Section Validation.
Context (unicode_L unicode_N : Z -> bool).

(** The type and the script a new task gets: its own, or those of the
    template it names. *)
Definition source_of (o : CreateTaskOptions) (s : State) : option (TaskType * Script) :=
  if Pushover.is_empty (o_TemplateID o) then Some (o_Type o, o_TICKscript o)
  else
    match find_template (o_TemplateID o) (templates s) with
    | Some tp => Some (tp_Type tp, tp_script tp)
    | None => None
    end.

(** [CreateTask]: the id is validated, then the script is compiled with
    the variables given; an enabled task is handed to the runtime. An error
    leaves the state as it was. *)
Definition CreateTask (o : CreateTaskOptions) (s : State) : State * (Task + Error) :=
  if negb (ID.valid_id unicode_L unicode_N (o_ID o)) then
    (s, inr (Msg (ID.invalid_id_message "task" (o_ID o))))
  else
    match find_task (o_ID o) (tasks s) with
    | Some _ => (s, inr (Conflict "task" (o_ID o)))
    | None =>
        match source_of o s with
        | None => (s, inr (NotFound "template" (o_TemplateID o)))
        | Some (ty, sc) =>
            match materialize sc (o_Vars o) with
            | inr reason => (s, inr (Msg (invalid_script_message reason)))
            | inl ns =>
                let t := {| ID := o_ID o; Type_ := ty; DBRPs := o_DBRPs o; script := sc;
                            TemplateID := o_TemplateID o; Vars := o_Vars o;
                            Status := o_Status o; nodes := ns |} in
                let s1 := add_counts 1 (enabled_count (o_Status o))
                            (set_tasks (insert_task t (tasks s)) s) in
                (if is_enabled t then start t s1 else s1, inl t)
            end
        end
    end.

(** [UpdateTask]: the patched task is compiled again; an enabled task is
    stopped, and started again if the patched one is enabled. *)
Definition UpdateTask (id : string) (u : UpdateTaskOptions) (s : State)
    : State * (Task + Error) :=
  match find_task id (tasks s) with
  | None => (s, inr (NotFound "task" id))
  | Some t =>
      let sc := if Pushover.is_empty (TemplateID t) then default (script t) (u_TICKscript u)
                else script t in
      let vars := default (Vars t) (u_Vars u) in
      match materialize sc vars with
      | inr reason => (s, inr (Msg (invalid_script_message reason)))
      | inl ns =>
          let t' := {| ID := ID t; Type_ := Type_ t; DBRPs := DBRPs t; script := sc;
                       TemplateID := TemplateID t; Vars := vars;
                       Status := default (Status t) (u_Status u); nodes := ns |} in
          let s1 := add_counts 0 (enabled_count (Status t') - enabled_count (Status t))
                      (set_tasks (replace_task t' (tasks s)) s) in
          let s2 := if is_enabled t then stop t s1 else s1 in
          (if is_enabled t' then start t' s2 else s2, inl t')
      end
  end.

(** [DeleteTask]: the task is stopped and its anonymous topics deleted. *)
Definition DeleteTask (id : string) (s : State) : State * option Error :=
  match find_task id (tasks s) with
  | None => (s, Some (NotFound "task" id))
  | Some t =>
      let s1 := add_counts (-1) (- enabled_count (Status t))
                  (set_tasks (remove_task id (tasks s)) s) in
      (purge t (if is_enabled t then stop t s1 else s1), None)
  end.

Definition CreateTemplate (id : string) (ty : TaskType) (sc : Script) (s : State)
    : State * (Template + Error) :=
  if negb (ID.valid_id unicode_L unicode_N id) then
    (s, inr (Msg (ID.invalid_id_message "template" id)))
  else
    match find_template id (templates s) with
    | Some _ => (s, inr (Conflict "template" id))
    | None =>
        let tp := {| tp_ID := id; tp_Type := ty; tp_script := sc |} in
        (set_templates (templates s ++ [tp]) s, inl tp)
    end.

End Validation.

Definition linked (template_id : string) (t : Task) : bool :=
  String.eqb (TemplateID t) template_id.

(** Every linked task is compiled with the new script and its own
    variables; the first that fails ends the reload, with its name. *)
Fixpoint reload_all (sc : Script) (ts : list Task) : list Task + Error :=
  match ts with
  | [] => inl []
  | t :: ts' =>
      match materialize sc (Vars t) with
      | inr reason => inr (Msg (reload_message (ID t) reason))
      | inl ns =>
          match reload_all sc ts' with
          | inr e => inr e
          | inl done =>
              inl ({| ID := ID t; Type_ := Type_ t; DBRPs := DBRPs t; script := sc;
                      TemplateID := TemplateID t; Vars := Vars t; Status := Status t;
                      nodes := ns |} :: done)
          end
      end
  end.

(** The reloaded task takes the place of the old one, and is started
    afresh if it is enabled. *)
Definition commit_reload (s : State) (t' : Task) : State :=
  match find_task (ID t') (tasks s) with
  | None => s
  | Some t =>
      let s1 := set_tasks (replace_task t' (tasks s)) s in
      if is_enabled t then start t' (stop t s1) else s1
  end.

(** [UpdateTemplate] with a new script: nothing is changed unless every
    linked task compiles. *)
Definition UpdateTemplate (id : string) (sc : Script) (s : State)
    : State * (Template + Error) :=
  match find_template id (templates s) with
  | None => (s, inr (NotFound "template" id))
  | Some tp =>
      match reload_all sc (List.filter (linked id) (tasks s)) with
      | inr e => (s, inr e)
      | inl reloaded =>
          let tp' := {| tp_ID := id; tp_Type := tp_Type tp; tp_script := sc |} in
          let s1 := set_templates
                      (List.map (fun x => if String.eqb (tp_ID x) id then tp' else x)
                         (templates s)) s in
          (List.fold_left commit_reload reloaded s1, inl tp')
      end
  end.

(** [DeleteTemplate] requires that no task is linked. *)
Definition DeleteTemplate (id : string) (s : State) : State * option Error :=
  match find_template id (templates s) with
  | None => (s, Some (NotFound "template" id))
  | Some _ =>
      if existsb (linked id) (tasks s) then (s, Some (InUse "template" id))
      else (set_templates
              (List.filter (fun x => negb (String.eqb (tp_ID x) id)) (templates s)) s,
            None)
  end.

(** Loading a task record when the server opens: it is counted, and
    started if it is enabled. *)
Definition load (s : State) (t : Task) : State :=
  let s1 := add_counts 1 (enabled_count (Status t)) s in
  if is_enabled t then start t s1 else s1.

(** A restart keeps the persisted records only: the statistics are counted
    and the enabled tasks started again, their topics opened from the
    store. *)
Definition Restart (s : State) : State :=
  List.fold_left load (tasks s)
    {| tasks := tasks s; templates := templates s; topic_store := topic_store s;
       NumTasks := 0; NumEnabledTasks := 0; executing := ∅; topics := ∅ |}.

End Server.


(** ** Sequences of requests

    Modelled from the spec: the requests are the operations of [Server];
    a sequence of them is served in order, each on the state the one
    before it left. *)
Module Requests.
Import Pipeline TICK Server.

Inductive Request : Type :=
| ReqCreateTask (o : CreateTaskOptions)
| ReqUpdateTask (id : string) (u : UpdateTaskOptions)
| ReqDeleteTask (id : string)
| ReqCreateTemplate (id : string) (ty : TaskType) (sc : Script)
| ReqUpdateTemplate (id : string) (sc : Script)
| ReqDeleteTemplate (id : string)
| ReqWrite (db rp : string) (ps : list Point)
| ReqRestart.

Section Validation.
Context (unicode_L unicode_N : Z -> bool).

Definition handle (r : Request) (s : State) : State :=
  match r with
  | ReqCreateTask o => (CreateTask unicode_L unicode_N o s).1
  | ReqUpdateTask id u => (UpdateTask id u s).1
  | ReqDeleteTask id => (DeleteTask id s).1
  | ReqCreateTemplate id ty sc => (CreateTemplate unicode_L unicode_N id ty sc s).1
  | ReqUpdateTemplate id sc => (UpdateTemplate id sc s).1
  | ReqDeleteTemplate id => (DeleteTemplate id s).1
  | ReqWrite db rp ps => Write db rp ps s
  | ReqRestart => Restart s
  end.

Definition serve (rs : list Request) (s : State) : State :=
  List.fold_left (fun s' r => handle r s') rs s.

End Validation.
End Requests.


(** ** What the statistics are compared with *)
Module Counts.
Import Server.

(** The number of enabled tasks of a list, summed task by task. *)
Fixpoint enabled_total (ts : list Task) : Z :=
  match ts with
  | [] => 0
  | t :: ts' => enabled_count (Status t) + enabled_total ts'
  end.

(** The id and the status of each task, in order. *)
Definition keys (ts : list Task) : list (string * TaskStatus) :=
  List.map (fun t => (ID t, Status t)) ts.

(** What the counters are about: the task records and the counters. *)
Definition core (s : State) : list Task * Z * Z :=
  (tasks s, NumTasks s, NumEnabledTasks s).

(** The counters agree with the records, and no two tasks share an id. *)
Definition consistent (s : State) : Prop :=
  NumTasks s = Z.of_nat (length (tasks s))
  /\ NumEnabledTasks s = enabled_total (tasks s)
  /\ List.NoDup (List.map ID (tasks s)).

End Counts.


(** ** What reaches an [httpOut] node *)
Module Endpoints.
Import Pipeline Server.








End Endpoints.


(** ** JSON documents and JSON Patch

    Modelled from the spec: the handler service and its patch code are not
    among the sources. The spec (§4.5) names the operations of JSON Patch
    that a PATCH on a handler supports: add, remove and replace, on paths
    that are JSON pointers, "-" standing for the end of a list. *)
Module JSON.
Import Strconv.

#[warnings="-register-all"]
Inductive Value : Type :=
| Null
| Bool (b : bool)
| Num (z : Z)
| Str (s : string)
| Array (l : list Value)
| Object (members : list (string * Value)).

(** *** Objects, as lists of members in the order they were added *)

Fixpoint member (k : string) (ms : list (string * Value)) : option Value :=
  match ms with
  | [] => None
  | (k', v) :: ms' => if String.eqb k' k then Some v else member k ms'
  end.

(** The member [k] gets the value [v], in place if it exists, at the end
    otherwise. *)
Fixpoint set_member (k : string) (v : Value) (ms : list (string * Value))
    : list (string * Value) :=
  match ms with
  | [] => [(k, v)]
  | (k', v') :: ms' =>
      if String.eqb k' k then (k', v) :: ms' else (k', v') :: set_member k v ms'
  end.

Fixpoint remove_member (k : string) (ms : list (string * Value)) : list (string * Value) :=
  match ms with
  | [] => []
  | (k', v') :: ms' =>
      if String.eqb k' k then ms' else (k', v') :: remove_member k ms'
  end.

(** *** JSON pointers *)

(** The tokens of a pointer: the text between the slashes, with [~1]
    read as a slash and [~0] as a tilde. [cur] is the token being read, in
    reverse. *)
Fixpoint tokens (s : string) (cur : list ascii) : list string :=
  let close := string_of_list_ascii (List.rev cur) in
  match s with
  | EmptyString => [close]
  | String "/" s' => close :: tokens s' []
  | String "~" (String "0" s') => tokens s' ("~"%char :: cur)
  | String "~" (String "1" s') => tokens s' ("/"%char :: cur)
  | String c s' => tokens s' (c :: cur)
  end.

(** A pointer is empty (the whole document) or starts with a slash. *)
Definition parse_pointer (path : string) : option (list string) :=
  match path with
  | EmptyString => Some []
  | String "/" s' => Some (tokens s' [])
  | _ => None
  end.

(** An array index: [0], or digits that do not start with [0]. *)
Definition index (tok : string) : option nat :=
  match tok with
  | EmptyString => None
  | String "0" EmptyString => Some O
  | String "0" _ => None
  | _ => option_map Z.to_nat (parse_digits tok 0)
  end.

(** *** The operations *)

Inductive Op : Type :=
| Add (v : Value)
| Remove
| Replace (v : Value).

Fixpoint insert_at (i : nat) (v : Value) (l : list Value) : option (list Value) :=
  match i, l with
  | O, _ => Some (v :: l)
  | S i', x :: l' => option_map (cons x) (insert_at i' v l')
  | S _, [] => None
  end.

Fixpoint remove_at (i : nat) (l : list Value) : option (list Value) :=
  match i, l with
  | O, _ :: l' => Some l'
  | S i', x :: l' => option_map (cons x) (remove_at i' l')
  | _, [] => None
  end.

Fixpoint replace_at (i : nat) (v : Value) (l : list Value) : option (list Value) :=
  match i, l with
  | O, _ :: l' => Some (v :: l')
  | S i', x :: l' => option_map (cons x) (replace_at i' v l')
  | _, [] => None
  end.

(** The operation on the member of an object or the element of an array
    that the last token of the path names. *)
Definition apply_last (op : Op) (tok : string) (parent : Value) : option Value :=
  match parent, op with
  | Object ms, Add v => Some (Object (set_member tok v ms))
  | Object ms, Remove =>
      match member tok ms with
      | Some _ => Some (Object (remove_member tok ms))
      | None => None
      end
  | Object ms, Replace v =>
      match member tok ms with
      | Some _ => Some (Object (set_member tok v ms))
      | None => None
      end
  | Array l, Add v =>
      if String.eqb tok "-" then Some (Array (l ++ [v]))
      else match index tok with
           | Some i => option_map Array (insert_at i v l)
           | None => None
           end
  | Array l, Remove =>
      match index tok with
      | Some i => option_map Array (remove_at i l)
      | None => None
      end
  | Array l, Replace v =>
      match index tok with
      | Some i => option_map Array (replace_at i v l)
      | None => None
      end
  | _, _ => None
  end.

(** The operation at a path: the path is followed down to the parent of
    its target, which must exist. *)
Fixpoint apply_at (op : Op) (path : list string) (doc : Value) : option Value :=
  match path with
  | [] =>
      match op with
      | Add v | Replace v => Some v
      | Remove => None
      end
  | [tok] => apply_last op tok doc
  | tok :: rest =>
      match doc with
      | Object ms =>
          match member tok ms with
          | Some child =>
              option_map (fun child' => Object (set_member tok child' ms))
                (apply_at op rest child)
          | None => None
          end
      | Array l =>
          match index tok with
          | Some i =>
              match List.nth_error l i with
              | Some child =>
                  match apply_at op rest child with
                  | Some child' => option_map Array (replace_at i child' l)
                  | None => None
                  end
              | None => None
              end
          | None => None
          end
      | _ => None
      end
  end.

(** One operation of a patch document. *)
Record Operation : Type := mkOperation {
  Path : string;
  Operation_ : Op
}.

Definition apply_operation (doc : Value) (o : Operation) : option Value :=
  match parse_pointer (Path o) with
  | Some path => apply_at (Operation_ o) path doc
  | None => None
  end.

(** A patch is applied operation by operation; it fails as a whole when
    one of them fails. *)
Fixpoint apply_patch (patch : list Operation) (doc : Value) : option Value :=
  match patch with
  | [] => Some doc
  | o :: patch' =>
      match apply_operation doc o with
      | Some doc' => apply_patch patch' doc'
      | None => None
      end
  end.

End JSON.

(** ** Alert handlers

    Modelled from the spec: the handler service is not among the sources.
    A handler is the record of §3; a PATCH applies the patch to its JSON
    document and reads the result back. *)
Module Handlers.
Import JSON.

Record HandlerAction : Type := mkHandlerAction {
  Kind : string;
  Options : list (string * Value)
}.

Record Handler : Type := mkHandler {
  ID : string;
  Topics : list string;
  Actions : list HandlerAction
}.

Definition action_document (a : HandlerAction) : Value :=
  Object [("kind", Str (Kind a)); ("options", Object (Options a))].

Definition document (h : Handler) : Value :=
  Object [("id", Str (ID h));
          ("topics", Array (List.map Str (Topics h)));
          ("actions", Array (List.map action_document (Actions h)))].

Fixpoint read_strings (l : list Value) : option (list string) :=
  match l with
  | [] => Some []
  | Str s :: l' => option_map (cons s) (read_strings l')
  | _ => None
  end.

Definition read_action (v : Value) : option HandlerAction :=
  match v with
  | Object ms =>
      match member "kind" ms, member "options" ms with
      | Some (Str k), Some (Object opts) => Some {| Kind := k; Options := opts |}
      | Some (Str k), None => Some {| Kind := k; Options := [] |}
      | _, _ => None
      end
  | _ => None
  end.

Fixpoint read_actions (l : list Value) : option (list HandlerAction) :=
  match l with
  | [] => Some []
  | v :: l' =>
      match read_action v, read_actions l' with
      | Some a, Some rest => Some (a :: rest)
      | _, _ => None
      end
  end.

Definition read_handler (v : Value) : option Handler :=
  match v with
  | Object ms =>
      match member "id" ms, member "topics" ms, member "actions" ms with
      | Some (Str id), Some (Array ts), Some (Array acts) =>
          match read_strings ts, read_actions acts with
          | Some topics, Some actions =>
              Some {| ID := id; Topics := topics; Actions := actions |}
          | _, _ => None
          end
      | _, _, _ => None
      end
  | _ => None
  end.

Inductive Error : Type :=
| Msg (message : string)
| Conflict (id : string)
| NotFound (id : string)
| BadPatch.

Definition find_handler (id : string) (hs : list Handler) : option Handler :=
  List.find (fun h => String.eqb (ID h) id) hs.

Section Validation.
Context (unicode_L unicode_N : Z -> bool).

Definition CreateHandler (h : Handler) (hs : list Handler)
    : list Handler * (Handler + Error) :=
  if negb (ID.valid_id unicode_L unicode_N (ID h)) then
    (hs, inr (Msg (ID.invalid_id_message "handler" (ID h))))
  else
    match find_handler (ID h) hs with
    | Some _ => (hs, inr (Conflict (ID h)))
    | None => (hs ++ [h], inl h)
    end.

(** [PATCH /alerts/handlers/<id>]: the patched handler takes the place of
    the old one. A patch that cannot be applied, or whose result is no
    handler, changes nothing. *)
Definition PatchHandler (id : string) (patch : list Operation) (hs : list Handler)
    : list Handler * (Handler + Error) :=
  match find_handler id hs with
  | None => (hs, inr (NotFound id))
  | Some h =>
      match apply_patch patch (document h) with
      | None => (hs, inr BadPatch)
      | Some doc =>
          match read_handler doc with
          | None => (hs, inr BadPatch)
          | Some h' =>
              if negb (ID.valid_id unicode_L unicode_N (ID h')) then
                (hs, inr (Msg (ID.invalid_id_message "handler" (ID h'))))
              else
                (List.map (fun x => if String.eqb (ID x) id then h' else x) hs, inl h')
          end
      end
  end.

End Validation.
End Handlers.


(** ** The scenarios of [server/server_test.go] *)
Module Scenarios.
Import Strconv AlertLevel Pipeline TICK Server.

Definition dbrps : list DBRP := [mkDBRP "mydb" "myrp"].

Definition nl : string := String (ascii_of_nat 10) "".

Definition lines (l : list string) : string :=
  List.fold_right (fun x acc => x +:+ nl +:+ acc) "" l.

Definition string_var (env : gmap string Var) (name : string) : string :=
  match env !! name with Some (StringVar s) => s | _ => "" end.

Definition duration_var (env : gmap string Var) (name : string) : Z :=
  match env !! name with Some (DurationVar d) => d | _ => 0 end.




Definition stream_count_document : string :=
  "{" +:+ Render.quote "series" +:+ ":[{" +:+ Render.quote "name" +:+ ":"
  +:+ Render.quote "test" +:+ "," +:+ Render.quote "columns" +:+ ":["
  +:+ Render.quote "time" +:+ "," +:+ Render.quote "count" +:+ "],"
  +:+ Render.quote "values" +:+ ":[[" +:+ Render.quote "1970-01-01T00:00:10Z"
  +:+ ",15]]}]}".

(** [TestServer_StreamTemplateTask_UpdateTemplate_Rollback]: [tickCorrect]
    and [tickNewVar]. *)
Definition tickCorrect : Script :=
  {| text := lines [""; "var field string"; "stream"; "    |from()";
                    "        .measurement('test')"; "    |window()";
                    "        .period(10s)"; "        .every(10s)";
                    "    |count(field)"; "    |httpOut('count')"];
     decls := [mkVarDecl "field" VarString None];
     body := fun env => [FromNode "test"; WindowNode (10 * second) (10 * second);
                         CountNode (string_var env "field"); HTTPOutNode "count"] |}.

Definition tickNewVar : Script :=
  {| text := lines [""; "var field string"; "var period duration"; "stream";
                    "    |from()"; "        .measurement('test')"; "    |window()";
                    "        .period(period)"; "        .every(period)";
                    "    |count(field)"; "    |httpOut('count')"];
     decls := [mkVarDecl "field" VarString None; mkVarDecl "period" VarDuration None];
     body := fun env => [FromNode "test";
                         WindowNode (duration_var env "period") (duration_var env "period");
                         CountNode (string_var env "field"); HTTPOutNode "count"] |}.

Definition no_script : Script := {| text := ""; decls := []; body := fun _ => [] |}.

Definition field_vars : gmap string Var := {[ "field" := StringVar "value" ]}.

(** A task of the template [testStreamTemplate], enabled. *)
Definition template_task (id : string) (vars : gmap string Var) : CreateTaskOptions :=
  {| o_ID := id; o_TemplateID := "testStreamTemplate"; o_Type := StreamTask;
     o_DBRPs := dbrps; o_TICKscript := no_script; o_Status := Enabled; o_Vars := vars |}.

Definition rollback_ids : list string :=
  ["testStreamTask-0"; "testStreamTask-1"; "testStreamTask-2"; "testStreamTask-3";
   "testStreamTask-4"].

(** The ids of the tests are Latin-1: any tables do above U+00FF. *)
Definition no_table (r : Z) : bool := false.

(** The state before the breaking update: the template with [tickCorrect]
    and five enabled tasks that give a value to [field] only. *)
Definition rollback_state : State :=
  List.fold_left
    (fun s id => (CreateTask no_table no_table (template_task id field_vars) s).1)
    rollback_ids
    (CreateTemplate no_table no_table "testStreamTemplate" StreamTask tickCorrect
       Server.empty).1.



Definition alert_topic : string := "main:testAlertHandlers:alert2".

Definition warning_event : string * EventState :=
  ("id", {| es_message := "message"; es_details := "details"; es_time := 0;
            es_duration := 0; es_level := Warning |}).

(** A task with its own script. *)
Definition script_task (id : string) (sc : Script) (st : TaskStatus) : CreateTaskOptions :=
  {| o_ID := id; o_TemplateID := ""; o_Type := StreamTask; o_DBRPs := dbrps;
     o_TICKscript := sc; o_Status := st; o_Vars := ∅ |}.

(** [TestServer_CreateTask_ValidIDs]: the script, and the id [tásk7] in
    UTF-8. *)
Definition tick_from : Script :=
  {| text := lines ["stream"; "    |from()"; "        .measurement('test')"];
     decls := [];
     body := fun _ => [FromNode "test"] |}.

Definition task_a_acute : string :=
  String "t" (String (ascii_of_nat 195) (String (ascii_of_nat 161) "sk7")).

(** [TestServer_AlertHandlers_CRUD]: the two handlers and their patches. *)
Definition myhandler : Handlers.Handler :=
  {| Handlers.ID := "myhandler";
     Handlers.Topics := ["system"; "test"];
     Handlers.Actions :=
       [{| Handlers.Kind := "slack";
           Handlers.Options := [("channel", JSON.Str "#test")] |}] |}.

Definition myhandler_patch : list JSON.Operation :=
  [JSON.mkOperation "/topics/0" JSON.Remove;
   JSON.mkOperation "/actions/0/options/channel" (JSON.Replace (JSON.Str "#kapacitor_test"))].

Definition anotherhandler : Handlers.Handler :=
  {| Handlers.ID := "anotherhandler";
     Handlers.Topics := ["test"];
     Handlers.Actions :=
       [{| Handlers.Kind := "slack";
           Handlers.Options := [("channel", JSON.Str "#test")] |};
        {| Handlers.Kind := "log";
           Handlers.Options := [("path", JSON.Str "/tmp/alert.log")] |}] |}.

Definition anotherhandler_patch : list JSON.Operation :=
  [JSON.mkOperation "/topics/-" (JSON.Add (JSON.Str "system"));
   JSON.mkOperation "/actions/0/options/channel" (JSON.Replace (JSON.Str "#kapacitor_test"));
   JSON.mkOperation "/actions/-"
     (JSON.Add (JSON.Object
                  [("kind", JSON.Str "smtp");
                   ("options",
                    JSON.Object [("to", JSON.Array [JSON.Str "oncall@example.com"])])]))].


End Scenarios.

(** ** [services/pushover]: the service, its self-test and its handler *)
Module PushoverService.
Import Strconv AlertLevel Pushover.

(** An element of a [[]interface{}]: a [Config], or a value of another
    type, which is known here by the name that [%T] prints for it. *)
Inductive Any : Type :=
| AnyConfig (c : Config)
| AnyOther (type_name : string).

(** [type Service struct]: the configuration held by [configValue]. What
    the logger is given is returned by the functions that log. *)
Record Service : Type := mkService {
  configValue : Config
}.

(** [func NewService(c Config, l *log.Logger) *Service]. *)
Definition NewService (c : Config) : Service := {| configValue := c |}.

(** [func (s *Service) config() Config]. *)
Definition config (s : Service) : Config := configValue s.

(** [func (s *Service) Update(newConfig []interface{}) error]: the service
    after the call and the error. [newConfig[0]] is read only when the
    length is 1. *)
Definition Update (newConfig : list Any) (s : Service) : Service * option string :=
  if negb (Nat.eqb (length newConfig) 1) then
    (s, Some ("expected only one new config object, got "
              +:+ Itoa (Z.of_nat (length newConfig))))
  else
    match newConfig with
    | AnyConfig c :: _ => ({| configValue := c |}, None)
    | AnyOther type_name :: _ =>
        (s, Some ("expected config object to be of type pushover.Config, got "
                  +:+ type_name))
    | [] => (s, None)
    end.

(** The calls [Update] of a sequence, one after the other. *)
Definition Updates (calls : list (list Any)) (s : Service) : Service :=
  List.fold_left (fun s' newConfig => (Update newConfig s').1) calls s.

(** The configuration of the last call of a sequence that gives exactly one
    [Config], [c0] when there is none. *)
Fixpoint last_config (calls : list (list Any)) (c0 : Config) : Config :=
  match calls with
  | [] => c0
  | [AnyConfig c] :: calls' => last_config calls' c
  | _ :: calls' => last_config calls' c0
  end.

Record testOptions : Type := mkTestOptions {
  to_User : string;
  to_Message : string;
  to_Device : string;
  to_Title : string;
  to_URL : string;
  to_URLTitle : string;
  to_Sound : string;
  to_Timestamp : bool;
  to_Level : Level
}.

(** [func (s *Service) TestOptions() interface{}]: the fields that are not
    named have their zero value. *)
Definition TestOptions (s : Service) : testOptions :=
  {| to_User := User (config s);
     to_Message := "test pushover message";
     to_Device := ""; to_Title := ""; to_URL := ""; to_URLTitle := ""; to_Sound := "";
     to_Timestamp := false;
     to_Level := Critical |}.

(** The argument of [Test]: a [*testOptions], or a value of another type,
    known by what [fmt] prints for it under the verb of the message. *)
Inductive Options : Type :=
| IsTestOptions (o : testOptions)
| OtherOptions (printed : string).

Record HandlerConfig : Type := mkHandlerConfig {
  hc_User : string;
  hc_Device : string;
  hc_Title : string;
  hc_URL : string;
  hc_URLTitle : string;
  hc_Sound : string;
  hc_Timestamp : bool
}.

(** [func (s *Service) DefaultHandlerConfig() HandlerConfig]. *)
Definition DefaultHandlerConfig : HandlerConfig :=
  {| hc_User := ""; hc_Device := ""; hc_Title := ""; hc_URL := ""; hc_URLTitle := "";
     hc_Sound := ""; hc_Timestamp := false |}.

(** Modelled from the spec: [alert.Event] is declared in the [alert]
    package, which is not among the sources; these are the two fields of
    its [State] that [Handle] reads. *)
Record Event : Type := mkEvent {
  State_Message : string;
  State_Level : Level
}.

Section World.
Context {Time : Type} (Time_String : Time -> string).
Context (http_PostForm : string -> gmap string (list string) -> Response + string)
        (json_error_field : string -> option string).

(** [s.Alert(...)]: [Alert] on the configuration the service holds when
    it is called. *)
Definition Service_Alert (s : Service) (now : Time)
    (user message device title URL' URLTitle sound : string)
    (timestamp : bool) (level : Level) : list (string * gmap string (list string)) * option string :=
  Alert Time_String http_PostForm json_error_field (config s) now
    user message device title URL' URLTitle sound timestamp level.

(** [func (s *Service) Test(options interface{}) error], with the HTTP
    requests performed. *)
Definition Test (s : Service) (now : Time) (options : Options)
    : list (string * gmap string (list string)) * option string :=
  match options with
  | IsTestOptions o =>
      Service_Alert s now (to_User o) (to_Message o) (to_Device o) (to_Title o)
        (to_URL o) (to_URLTitle o) (to_Sound o) (to_Timestamp o) (to_Level o)
  | OtherOptions printed => ([], Some ("unexpected options type " +:+ printed))
  end.

(** [func (h *handler) Handle(event alert.Event)]: the handler holds a
    pointer to the service, so it is the service as it is when the event
    comes that counts. The result is the HTTP requests performed and the
    lines given to the logger ([Println] separates its operands by a
    space). *)
Definition Handle (s : Service) (c : HandlerConfig) (now : Time) (event : Event)
    : list (string * gmap string (list string)) * list string :=
  match Service_Alert s now (hc_User c) (State_Message event) (hc_Device c) (hc_Title c)
          (hc_URL c) (hc_URLTitle c) (hc_Sound c) (hc_Timestamp c) (State_Level event) with
  | (requests, Some err) =>
      (requests, ["E! failed to send event to Pushover" +:+ " " +:+ err])
  | (requests, None) => (requests, [])
  end.

End World.
End PushoverService.

(** ** [services/pushover/pushovertest]: the test server *)
Module PushovertestServer.
Import Strconv Pushover Pushovertest.

Record Request : Type := mkRequest {
  Request_PostData : PostData
}.

(** [type Server struct]: the requests recorded and the [closed] flag;
    [ts_closed] counts the calls of [s.ts.Close()]. *)
Record Server : Type := mkServer {
  requests : list Request;
  closed : bool;
  ts_closed : nat
}.

(** [func NewServer() *Server]. *)
Definition NewServer : Server := {| requests := []; closed := false; ts_closed := 0 |}.

Section Library.
(** [url.ParseQuery] is the standard library's: the values it could parse
    and its error. *)
Context (ParseQuery : string -> gmap string (list string) * option string).

(** The handler of [NewServer] on a request whose body reads as [data]:
    the errors of [ParseQuery] and of [NewPostData] are dropped. *)
Definition serve (s : Server) (data : string) : Server :=
  let v := (ParseQuery data).1 in
  let fr := {| Request_PostData := (NewPostData v).1 |} in
  {| requests := requests s ++ [fr]; closed := closed s; ts_closed := ts_closed s |}.

End Library.

(** [func (s *Server) Requests() []Request]. *)
Definition Requests (s : Server) : list Request := requests s.

(** [func (s *Server) Close()]. *)
Definition Close (s : Server) : Server :=
  if closed s then s
  else {| requests := requests s; closed := true; ts_closed := S (ts_closed s) |}.

(** What happens to a server: a request arrives with a body, or [Close]
    is called. *)
Inductive Call : Type :=
| Arrives (data : string)
| Closes.

Section Calls.
Context (ParseQuery : string -> gmap string (list string) * option string).

(** What the handler records for a request whose body reads as [data]. *)
Definition recorded (data : string) : Request :=
  {| Request_PostData := (NewPostData (ParseQuery data).1).1 |}.

Definition call (s : Server) (c : Call) : Server :=
  match c with
  | Arrives data => serve ParseQuery s data
  | Closes => Close s
  end.

(** The bodies of the requests of a sequence of calls, in order. *)
Fixpoint bodies (cs : list Call) : list string :=
  match cs with
  | [] => []
  | Arrives data :: cs' => data :: bodies cs'
  | Closes :: cs' => bodies cs'
  end.

Definition closes (cs : list Call) : bool :=
  existsb (fun c => match c with Closes => true | Arrives _ => false end) cs.

End Calls.

End PushovertestServer.

(* ===================================================================== *)
(** * Theorems *)
(* ===================================================================== *)

(** ** Decimal conversion: [Atoi] undoes [Itoa] *)
Section StrconvFacts.
Import Strconv.

Lemma digit_cases (d : Z) :
  0 <= d < 10 ->
  d = 0 \/ d = 1 \/ d = 2 \/ d = 3 \/ d = 4 \/ d = 5 \/ d = 6 \/ d = 7 \/ d = 8 \/ d = 9.
Proof. lia. Qed.

Lemma digit_val_char (d : Z) : 0 <= d < 10 -> digit_val (digit_char d) = Some d.
Proof.
  intros Hd. destruct (digit_cases d Hd) as [->|[->|[->|[->|[->|[->|[->|[->|[->| ->]]]]]]]]];
    reflexivity.
Qed.

Lemma digit_char_not_sign (d : Z) :
  0 <= d < 10 ->
  Ascii.eqb (digit_char d) "-" = false /\ Ascii.eqb (digit_char d) "+" = false.
Proof.
  intros Hd. destruct (digit_cases d Hd) as [->|[->|[->|[->|[->|[->|[->|[->|[->| ->]]]]]]]]];
    split; reflexivity.
Qed.

(** Reading back what [format_digits] wrote in front of [acc] gives the
    number written, whatever follows. *)
Lemma parse_format_digits (fuel : nat) :
  forall (u : Z) (acc : string),
    0 <= u < 10 ^ Z.of_nat fuel ->
    parse_digits (format_digits fuel u acc) 0 = parse_digits acc u.
Proof.
  induction fuel as [|fuel IH]; intros u acc Hu.
  - simpl in *. replace u with 0 by lia. reflexivity.
  - rewrite Nat2Z.inj_succ, Z.pow_succ_r in Hu by lia.
    cbn [format_digits]. destruct (Z.ltb_spec u 10) as [Hlt|Hge].
    + rewrite Z.mod_small by lia. cbn [parse_digits].
      rewrite digit_val_char by lia. f_equal.
    + rewrite IH.
      * cbn [parse_digits]. rewrite digit_val_char by (apply Z.mod_pos_bound; lia).
        f_equal. pose proof (Z.div_mod u 10). lia.
      * split; [apply Z.div_pos; lia | apply Z.div_lt_upper_bound; lia].
Qed.

Definition starts_with_digit (s : string) : Prop :=
  exists d rest, 0 <= d < 10 /\ s = String (digit_char d) rest.

Lemma format_digits_head (fuel : nat) :
  forall (u : Z) (acc : string),
    0 <= u ->
    (0 < fuel)%nat \/ starts_with_digit acc ->
    starts_with_digit (format_digits fuel u acc).
Proof.
  induction fuel as [|fuel IH]; intros u acc Hu Hor.
  - destruct Hor as [Hf|Hd]; [lia | exact Hd].
  - cbn [format_digits].
    assert (Hm : 0 <= u mod 10 < 10) by (apply Z.mod_pos_bound; lia).
    destruct (u <? 10).
    + exists (u mod 10), acc. auto.
    + apply IH; [apply Z.div_pos; lia |]. right. exists (u mod 10), acc. auto.
Qed.

Lemma max_digits_bound (u : Z) :
  0 <= u <= 2 ^ 63 -> 0 <= u < 10 ^ Z.of_nat max_digits.
Proof.
  intros Hu. split; [lia |].
  apply Z.le_lt_trans with (2 ^ 63); [lia | reflexivity].
Qed.

Lemma ParseInt_digits (fn : string) (u : Z) :
  0 <= u <= maxInt ->
  ParseInt fn (format_digits max_digits u "") = (u, None).
Proof.
  intros Hu. unfold maxInt, intSize in Hu.
  destruct (format_digits_head max_digits u "" ltac:(lia) ltac:(left; unfold max_digits; lia))
    as (d & rest & Hd & Heq).
  pose proof (parse_format_digits max_digits u "" (max_digits_bound u ltac:(lia))) as Hp.
  rewrite Heq in *. unfold ParseInt.
  destruct (digit_char_not_sign d Hd) as [-> ->]. cbn [orb]. cbv iota.
  rewrite Hp.
  cbn [parse_digits negb andb]. unfold intSize.
  destruct (Z.leb_spec (2 ^ (64 - 1)) u); [lia | reflexivity].
Qed.

Lemma Atoi_Itoa (n : Z) : is_int n -> Atoi (Itoa n) = (n, None).
Proof.
  unfold is_int, minInt, maxInt, intSize, Atoi, Itoa. intros Hn.
  destruct (Z.ltb_spec n 0) as [Hneg|Hpos].
  - destruct (format_digits_head max_digits (- n) "" ltac:(lia)
                ltac:(left; unfold max_digits; lia)) as (d & rest & Hd & Heq).
    pose proof (parse_format_digits max_digits (- n) ""
                  (max_digits_bound (- n) ltac:(lia))) as Hp.
    rewrite Heq in *. unfold ParseInt.
    replace (("-"%char =? "+")%char) with false by reflexivity.
    replace (("-"%char =? "-")%char) with true by reflexivity.
    cbn [orb]. cbv iota. rewrite Hp.
    cbn [parse_digits negb andb]. unfold intSize.
    destruct (Z.ltb_spec (2 ^ (64 - 1)) (- n)); [lia |]. f_equal. lia.
  - apply ParseInt_digits. unfold maxInt, intSize. lia.
Qed.

End StrconvFacts.

(** ** The Pushover service *)
Section PushoverFacts.
Import Strconv AlertLevel Pushover.

Lemma Values_Get_Set (k k' value : string) (v : gmap string (list string)) :
  Values_Get (Values_Set k value v) k' =
    if decide (k = k') then value else Values_Get v k'.
Proof.
  unfold Values_Get, Values_Set. case_decide as Hk.
  - subst k'. by rewrite lookup_insert_eq.
  - by rewrite lookup_insert_ne.
Qed.

Lemma Values_Get_set_if_nonempty (k k' value : string) (v : gmap string (list string)) :
  Values_Get (set_if_nonempty k value v) k' =
    if decide (k = k') then (if is_empty value then Values_Get v k' else value)
    else Values_Get v k'.
Proof.
  unfold set_if_nonempty. destruct (is_empty value).
  - by case_decide.
  - apply Values_Get_Set.
Qed.

Lemma Values_Get_empty (k : string) : Values_Get ∅ k = "".
Proof. unfold Values_Get. by rewrite lookup_empty. Qed.

Lemma is_empty_true (s : string) : is_empty s = true -> s = "".
Proof. by destruct s. Qed.

Context {Time : Type} (Time_String : Time -> string).

(** Every key that [Values] writes reads back as the field it was written
    from; a key left out because its field is empty reads back empty. *)
Lemma Values_of_Get (p : postData Time) :
  let v := Values_of Time_String p in
  Values_Get v "token" = pd_Token p /\
  Values_Get v "user" = pd_User p /\
  Values_Get v "message" = pd_Message p /\
  Values_Get v "priority" = Itoa (pd_Priority p) /\
  Values_Get v "device" = pd_Device p /\
  Values_Get v "title" = pd_Title p /\
  Values_Get v "url" = pd_URL p /\
  Values_Get v "url_title" = pd_URLTitle p /\
  Values_Get v "sound" = pd_Sound p /\
  Values_Get v "timestamp" =
    match pd_Timestamp p with Some t => Time_String t | None => "" end.
Proof.
  unfold Values_of. cbv zeta.
  destruct (pd_Timestamp p) as [t|];
    rewrite ?Values_Get_Set, ?Values_Get_set_if_nonempty, ?Values_Get_empty;
    repeat (case_decide; try discriminate);
    repeat split; try reflexivity;
    repeat match goal with
      | |- context [is_empty ?s] =>
          let E := fresh in destruct (is_empty s) eqn:E;
          [apply is_empty_true in E; rewrite E |]
      end; try reflexivity; congruence.
Qed.

End PushoverFacts.

Section PushoverClaims.
Import Strconv AlertLevel Pushover.
Context {Time : Type} (Time_String : Time -> string).
Context (http_PostForm : string -> gmap string (list string) -> Response + string)
        (json_error_field : string -> option string).

(** C9. Whatever the arguments, when the stored configuration has
    [Enabled = false], [preparePost] returns the error
    "service is not enabled" (with an empty URL and no form values) and
    [Alert] returns that same error having performed no HTTP request;
    when [Enabled = true], [preparePost] returns no error. *)
Theorem preparePost_enabled_gate (c : Config) (now : Time)
    (user message device title url urlTitle sound : string)
    (timestamp : bool) (level : Level) :
  if Enabled c then
    (preparePost Time_String c now user message device title url urlTitle sound
       timestamp level).2 = None
  else
    preparePost Time_String c now user message device title url urlTitle sound
      timestamp level = ("", ∅, Some "service is not enabled")
    /\ Alert Time_String http_PostForm json_error_field c now user message device
         title url urlTitle sound timestamp level
       = ([], Some "service is not enabled").
Proof.
  unfold Alert, preparePost. destruct (Enabled c); cbn [negb snd]; auto.
Qed.

(** C10. For every [postData] whose [Priority] is a Go [int],
    [NewPostData] applied to its [Values] returns no error, and the
    [PostData] it returns carries the same Token, User, Message, Device,
    Title, URL, URLTitle, Sound and Priority (and, as Timestamp, the
    rendering of the time stamp, empty when there is none). *)
Theorem NewPostData_Values (p : postData Time) :
  is_int (pd_Priority p) ->
  Pushovertest.NewPostData (Values_of Time_String p) =
    ({| Pushovertest.Token := pd_Token p;
        Pushovertest.User := pd_User p;
        Pushovertest.Message := pd_Message p;
        Pushovertest.Device := pd_Device p;
        Pushovertest.Title := pd_Title p;
        Pushovertest.URL := pd_URL p;
        Pushovertest.URLTitle := pd_URLTitle p;
        Pushovertest.Sound := pd_Sound p;
        Pushovertest.Timestamp :=
          match pd_Timestamp p with Some t => Time_String t | None => "" end;
        Pushovertest.Priority := pd_Priority p |}, None).
Proof.
  intros Hint. unfold Pushovertest.NewPostData.
  destruct (Values_of_Get Time_String p)
    as (-> & -> & -> & -> & -> & -> & -> & -> & -> & ->).
  rewrite (Atoi_Itoa _ Hint). reflexivity.
Qed.

End PushoverClaims.

(** A critical alert with a device and a time stamp, sent through the
    round trip. *)
Lemma NewPostData_Values_witness :
  Pushovertest.NewPostData
    (Pushover.Values_of (fun t : Z => Strconv.Itoa t)
       (Pushover.mkPostData "tok" "usr" "msg" "phone" "" "" "" 2 (Some 42) "siren"))
  = ({| Pushovertest.Token := "tok"; Pushovertest.User := "usr";
        Pushovertest.Message := "msg"; Pushovertest.Device := "phone";
        Pushovertest.Title := ""; Pushovertest.URL := "";
        Pushovertest.URLTitle := ""; Pushovertest.Sound := "siren";
        Pushovertest.Timestamp := "42"; Pushovertest.Priority := 2 |}, None).
Proof.
  apply (NewPostData_Values (fun t : Z => Strconv.Itoa t)
           (Pushover.mkPostData "tok" "usr" "msg" "phone" "" "" "" 2 (Some 42) "siren")).
  unfold Strconv.is_int, Strconv.minInt, Strconv.maxInt, Strconv.intSize. simpl. lia.
Defined.

(** ** The task store: counters and ids *)
Section TaskStore.
Import Pipeline TICK Server Counts.

Lemma find_task_Some (id : string) (ts : list Task) (t : Task) :
  find_task id ts = Some t -> List.In t ts /\ ID t = id.
Proof.
  unfold find_task. intros H. apply List.find_some in H as [Hin Heq].
  split; [exact Hin | by apply String.eqb_eq].
Qed.

Lemma find_task_None (id : string) (ts : list Task) :
  find_task id ts = None -> ~ List.In id (List.map ID ts).
Proof.
  unfold find_task. intros H Hin. apply List.in_map_iff in Hin as (t & Hid & Hin).
  pose proof (List.find_none _ _ H t Hin) as Hne. cbn in Hne.
  rewrite <- Hid, String.eqb_refl in Hne. discriminate.
Qed.

Lemma enabled_total_filter (ts : list Task) :
  enabled_total ts = Z.of_nat (length (List.filter is_enabled ts)).
Proof.
  induction ts as [|t ts IH]; [reflexivity |].
  cbn [enabled_total List.filter]. unfold is_enabled at 1, enabled_count.
  destruct (Status t); cbn [length]; lia.
Qed.

Lemma insert_task_length (t : Task) (ts : list Task) :
  length (insert_task t ts) = S (length ts).
Proof.
  induction ts as [|u ts IH]; [reflexivity |].
  cbn [insert_task]. destruct (String.ltb _ _); cbn [length]; lia.
Qed.

Lemma insert_task_total (t : Task) (ts : list Task) :
  enabled_total (insert_task t ts) = enabled_count (Status t) + enabled_total ts.
Proof.
  induction ts as [|u ts IH]; [reflexivity |].
  cbn [insert_task]. destruct (String.ltb _ _); cbn [enabled_total]; lia.
Qed.

Lemma insert_task_In (t x : Task) (ts : list Task) :
  List.In x (insert_task t ts) <-> x = t \/ List.In x ts.
Proof.
  induction ts as [|u ts IH]; cbn [insert_task].
  - cbn. intuition.
  - destruct (String.ltb _ _); cbn [List.In] in *; intuition.
Qed.

Lemma insert_task_NoDup (t : Task) (ts : list Task) :
  ~ List.In (ID t) (List.map ID ts) ->
  List.NoDup (List.map ID ts) ->
  List.NoDup (List.map ID (insert_task t ts)).
Proof.
  induction ts as [|u ts IH]; intros Hfresh Hnd; cbn [insert_task].
  - cbn. constructor; [intros [] | constructor].
  - destruct (String.ltb _ _); cbn [List.map].
    + constructor; assumption.
    + cbn [List.map List.In] in *. inversion Hnd as [|? ? Hu Hts]; subst.
      constructor.
      * intros Hin. apply List.in_map_iff in Hin as (x & Hx & Hin).
        apply insert_task_In in Hin as [-> | Hin]; [intuition |].
        apply Hu. apply List.in_map_iff. eauto.
      * apply IH; [intuition | assumption].
Qed.

Lemma remove_task_counts (id : string) (t : Task) (ts : list Task) :
  find_task id ts = Some t ->
  List.NoDup (List.map ID ts) ->
  Z.of_nat (length (remove_task id ts)) = Z.of_nat (length ts) - 1
  /\ enabled_total (remove_task id ts) = enabled_total ts - enabled_count (Status t)
  /\ List.NoDup (List.map ID (remove_task id ts)).
Proof.
  induction ts as [|u ts IH]; intros Hfind Hnd; [discriminate |].
  inversion Hnd as [|? ? Hu Hts]; subst.
  cbn [find_task List.find] in Hfind. cbn [remove_task List.filter].
  destruct (String.eqb_spec (ID u) id) as [Heq|Hne]; cbn [negb].
  - injection Hfind as <-.
    assert (Hsame : remove_task id ts = ts).
    { unfold remove_task. apply List.forallb_filter_id, List.forallb_forall.
      intros x Hx. destruct (String.eqb_spec (ID x) id) as [Hx'|]; [|reflexivity].
      exfalso. apply Hu. rewrite Heq, <- Hx'. by apply List.in_map. }
    fold (remove_task id ts). rewrite Hsame. cbn [length enabled_total].
    repeat split; [lia | lia | assumption].
  - fold (remove_task id ts). fold (find_task id ts) in Hfind.
    destruct (IH Hfind Hts) as (Hlen & Htot & Hnd').
    cbn [length enabled_total List.map]. repeat split; [lia | lia |].
    constructor; [| assumption].
    intros Hin. apply Hu. apply List.in_map_iff in Hin as (x & Hx & Hin).
    apply List.filter_In in Hin as [Hin _]. apply List.in_map_iff. eauto.
Qed.

Lemma replace_task_ids (t' : Task) (ts : list Task) :
  List.map ID (replace_task t' ts) = List.map ID ts.
Proof.
  induction ts as [|u ts IH]; [reflexivity |].
  cbn [replace_task List.map]. fold (replace_task t' ts). rewrite IH.
  destruct (String.eqb_spec (ID u) (ID t')) as [Heq|]; congruence.
Qed.

Lemma replace_task_length (t' : Task) (ts : list Task) :
  length (replace_task t' ts) = length ts.
Proof. unfold replace_task. apply List.length_map. Qed.

Lemma replace_task_absent (t' : Task) (ts : list Task) :
  ~ List.In (ID t') (List.map ID ts) -> replace_task t' ts = ts.
Proof.
  induction ts as [|u ts IH]; intros Hnot; [reflexivity |].
  cbn [replace_task List.map List.In] in *. fold (replace_task t' ts).
  destruct (String.eqb_spec (ID u) (ID t')) as [Heq|Hne]; [tauto |].
  rewrite IH; tauto.
Qed.

Lemma replace_task_total (t t' : Task) (ts : list Task) :
  find_task (ID t') ts = Some t ->
  List.NoDup (List.map ID ts) ->
  enabled_total (replace_task t' ts)
  = enabled_total ts - enabled_count (Status t) + enabled_count (Status t').
Proof.
  induction ts as [|u ts IH]; intros Hfind Hnd; [discriminate |].
  inversion Hnd as [|? ? Hu Hts]; subst.
  cbn [find_task List.find] in Hfind. cbn [replace_task List.map].
  fold (replace_task t' ts).
  destruct (String.eqb_spec (ID u) (ID t')) as [Heq|Hne].
  - injection Hfind as <-. rewrite replace_task_absent by congruence.
    cbn [enabled_total]. lia.
  - fold (find_task (ID t') ts) in Hfind. cbn [enabled_total].
    rewrite (IH Hfind Hts). lia.
Qed.

End TaskStore.

(** ** The statistics follow the task records *)
Section Statistics.
Import Pipeline TICK Server Counts Requests.

Lemma core_start (t : Task) (s : State) : core (start t s) = core s.
Proof. reflexivity. Qed.

Lemma core_stop (t : Task) (s : State) : core (stop t s) = core s.
Proof. reflexivity. Qed.

Lemma core_purge (t : Task) (s : State) : core (purge t s) = core s.
Proof. reflexivity. Qed.

Lemma core_record_event (id : string) (ev : Z * string * EventState) (s : State) :
  core (record_event id ev s) = core s.
Proof. destruct ev as [[ordinal eid] es]. reflexivity. Qed.

Lemma core_record_events (id : string) (evs : list (Z * string * EventState)) :
  forall s, core (List.fold_left (fun s' ev => record_event id ev s') evs s) = core s.
Proof.
  induction evs as [|ev evs IH]; intros s; [reflexivity |].
  cbn [List.fold_left]. rewrite IH. apply core_record_event.
Qed.

Lemma core_feed (db rp : string) (ps : list Point) (t : Task) (s : State) :
  core (feed db rp ps t s) = core s.
Proof.
  unfold feed. destruct (Type_ t); [| reflexivity].
  destruct (executing s !! ID t) as [sts|]; [| reflexivity].
  destruct (is_enabled t && subscribes db rp t); [| reflexivity].
  destruct (chain_run 1 (nodes t) sts (List.map MPoint ps)) as [[sts' out] evs].
  by rewrite core_record_events.
Qed.

Lemma core_Write (db rp : string) (ps : list Point) (s : State) :
  core (Write db rp ps s) = core s.
Proof.
  unfold Write. generalize (tasks s) as ts. intros ts. revert s.
  induction ts as [|t ts IH]; intros s; [reflexivity |].
  cbn [List.fold_left]. rewrite IH. apply core_feed.
Qed.

Lemma consistent_core (s s' : State) :
  core s' = core s -> consistent s -> consistent s'.
Proof.
  unfold core, consistent. intros [= Ht Hn He]. rewrite Ht, Hn, He. auto.
Qed.

Lemma consistent_empty : consistent Server.empty.
Proof. repeat split; constructor. Qed.

Section Validation.
Context (unicode_L unicode_N : Z -> bool).

Lemma consistent_CreateTask (o : CreateTaskOptions) (s : State) :
  consistent s -> consistent (CreateTask unicode_L unicode_N o s).1.
Proof.
  intros Hs. unfold CreateTask.
  destruct (negb _); [exact Hs |].
  destruct (find_task (o_ID o) (tasks s)) eqn:Hfind; [exact Hs |].
  destruct (source_of o s) as [[ty sc]|]; [| exact Hs].
  destruct (materialize sc (o_Vars o)) as [ns|]; [| exact Hs].
  cbn [fst]. set (t := mkTask _ _ _ _ _ _ _ _).
  set (s1 := add_counts _ _ _).
  assert (H1 : consistent s1).
  { destruct Hs as (Hn & He & Hnd). unfold consistent, s1.
    cbn [tasks NumTasks NumEnabledTasks add_counts set_tasks].
    rewrite insert_task_length, insert_task_total.
    repeat split; [lia | subst t; cbn [Status]; lia |].
    apply insert_task_NoDup; [| exact Hnd]. by apply find_task_None. }
  destruct (is_enabled t); [| exact H1].
  apply (consistent_core s1); [apply core_start | exact H1].
Qed.

End Validation.

Lemma consistent_UpdateTask (id : string) (u : UpdateTaskOptions) (s : State) :
  consistent s -> consistent (UpdateTask id u s).1.
Proof.
  intros Hs. unfold UpdateTask.
  destruct (find_task id (tasks s)) as [t|] eqn:Hfind; [| exact Hs].
  destruct (materialize _ _) as [ns|]; [| exact Hs].
  cbn [fst]. set (t' := mkTask _ _ _ _ _ _ _ _).
  set (s1 := add_counts _ _ _).
  assert (Hid : ID t' = id) by (subst t'; cbn; by apply find_task_Some in Hfind as [_ ?]).
  assert (H1 : consistent s1).
  { destruct Hs as (Hn & He & Hnd). unfold consistent, s1.
    cbn [tasks NumTasks NumEnabledTasks add_counts set_tasks].
    rewrite replace_task_length, replace_task_ids.
    rewrite (replace_task_total t) by (rewrite ?Hid; assumption).
    repeat split; [lia | lia | exact Hnd]. }
  assert (H2 : consistent (if is_enabled t then stop t s1 else s1)).
  { destruct (is_enabled t); [| exact H1].
    apply (consistent_core s1); [apply core_stop | exact H1]. }
  destruct (is_enabled t'); [| exact H2].
  eapply consistent_core; [apply core_start | exact H2].
Qed.

Lemma consistent_DeleteTask (id : string) (s : State) :
  consistent s -> consistent (DeleteTask id s).1.
Proof.
  intros Hs. unfold DeleteTask.
  destruct (find_task id (tasks s)) as [t|] eqn:Hfind; [| exact Hs].
  cbn [fst]. set (s1 := add_counts _ _ _).
  assert (H1 : consistent s1).
  { destruct Hs as (Hn & He & Hnd). unfold consistent, s1.
    cbn [tasks NumTasks NumEnabledTasks add_counts set_tasks].
    destruct (remove_task_counts id t (tasks s) Hfind Hnd) as (Hl & Ht & Hnd').
    repeat split; [lia | lia | exact Hnd']. }
  eapply consistent_core; [apply core_purge |].
  destruct (is_enabled t); [| exact H1].
  eapply consistent_core; [apply core_stop | exact H1].
Qed.

Lemma keys_ids (ts : list Task) : List.map fst (keys ts) = List.map ID ts.
Proof. unfold keys. rewrite List.map_map. reflexivity. Qed.

Lemma keys_length (ts : list Task) : length (keys ts) = length ts.
Proof. apply List.length_map. Qed.

Lemma consistent_keys (s s' : State) :
  keys (tasks s') = keys (tasks s) ->
  NumTasks s' = NumTasks s ->
  NumEnabledTasks s' = NumEnabledTasks s ->
  consistent s -> consistent s'.
Proof.
  unfold consistent. intros Hk Hn He (Hn' & He' & Hnd).
  assert (Hlen : length (tasks s') = length (tasks s))
    by (by rewrite <- !keys_length, Hk).
  assert (Hids : List.map ID (tasks s') = List.map ID (tasks s))
    by (by rewrite <- !keys_ids, Hk).
  assert (Htot : forall a b, keys a = keys b -> enabled_total a = enabled_total b).
  { induction a as [|x a IH]; intros [|y b] Hab; try discriminate; [reflexivity |].
    cbn in Hab. injection Hab as Hid Hst Hrest. cbn [enabled_total].
    rewrite Hst, (IH b Hrest). reflexivity. }
  rewrite Hn, He, Hlen, Hids, (Htot _ _ Hk). auto.
Qed.

Lemma keys_replace_task (t' : Task) (ts : list Task) :
  List.In (ID t', Status t') (keys ts) ->
  List.NoDup (List.map ID ts) ->
  keys (replace_task t' ts) = keys ts.
Proof.
  induction ts as [|u ts IH]; intros Hin Hnd; [reflexivity |].
  inversion Hnd as [|? ? Hu Hts]; subst.
  cbn [keys replace_task List.map]. fold (replace_task t' ts). fold (keys ts).
  fold (keys (replace_task t' ts)).
  destruct (String.eqb_spec (ID u) (ID t')) as [Heq|Hne].
  - rewrite replace_task_absent by congruence.
    cbn in Hin. destruct Hin as [[= _ Hst] | Hin]; [congruence |].
    exfalso. apply Hu. rewrite Heq. unfold keys in Hin.
    apply List.in_map_iff in Hin as (x & [= Hx _] & Hin).
    apply List.in_map_iff. eauto.
  - rewrite IH; [reflexivity | | assumption].
    cbn in Hin. destruct Hin as [[= Hid _] | Hin]; [congruence | assumption].
Qed.

Lemma reload_all_keys (sc : Script) (ts : list Task) :
  forall ts', reload_all sc ts = inl ts' -> keys ts' = keys ts.
Proof.
  induction ts as [|t ts IH]; intros ts' H; cbn [reload_all] in H.
  - by injection H as <-.
  - destruct (materialize sc (Vars t)) as [ns|]; [| discriminate].
    destruct (reload_all sc ts) as [done|]; [| discriminate].
    injection H as <-. cbn. f_equal. by apply IH.
Qed.


Lemma core_commit_reload (s : State) (t' : Task) :
  core (commit_reload s t') = (replace_task t' (tasks s), NumTasks s, NumEnabledTasks s).
Proof.
  unfold commit_reload. destruct (find_task (ID t') (tasks s)) eqn:Hfind.
  - destruct (is_enabled _); reflexivity.
  - rewrite replace_task_absent by (by apply find_task_None). reflexivity.
Qed.

Lemma commit_reload_all (rel : list Task) :
  forall s,
    (forall t', List.In t' rel -> List.In (ID t', Status t') (keys (tasks s))) ->
    List.NoDup (List.map ID (tasks s)) ->
    keys (tasks (List.fold_left commit_reload rel s)) = keys (tasks s)
    /\ NumTasks (List.fold_left commit_reload rel s) = NumTasks s
    /\ NumEnabledTasks (List.fold_left commit_reload rel s) = NumEnabledTasks s.
Proof.
  induction rel as [|t' rel IH]; intros s Hrel Hnd; [auto |].
  cbn [List.fold_left].
  pose proof (core_commit_reload s t') as Hc. unfold core in Hc.
  injection Hc as Ht Hn He.
  assert (Hk : keys (tasks (commit_reload s t')) = keys (tasks s)).
  { rewrite Ht. apply keys_replace_task; [apply Hrel; by left | exact Hnd]. }
  destruct (IH (commit_reload s t')) as (Hk' & Hn' & He').
  - intros x Hx. rewrite Hk. apply Hrel. by right.
  - rewrite Ht, replace_task_ids. exact Hnd.
  - rewrite Hk', Hn', He'. auto.
Qed.

Lemma consistent_UpdateTemplate (id : string) (sc : Script) (s : State) :
  consistent s -> consistent (UpdateTemplate id sc s).1.
Proof.
  intros Hs. unfold UpdateTemplate.
  destruct (find_template id (templates s)) as [tp|]; [| exact Hs].
  destruct (reload_all sc _) as [rel|] eqn:Hrel; [| exact Hs].
  cbn [fst]. set (s1 := set_templates _ s).
  destruct (commit_reload_all rel s1) as (Hk & Hn & He).
  - intros t' Hin. apply reload_all_keys in Hrel. cbn [s1 set_templates tasks].
    assert (Hin' : List.In (ID t', Status t') (keys rel))
      by (unfold keys; apply List.in_map_iff; eauto).
    rewrite Hrel in Hin'. unfold keys in *.
    apply List.in_map_iff in Hin' as (x & Hx & Hin').
    apply List.filter_In in Hin' as [Hin' _]. apply List.in_map_iff. eauto.
  - apply Hs.
  - by apply (consistent_keys s).
Qed.

Lemma consistent_DeleteTemplate (id : string) (s : State) :
  consistent s -> consistent (DeleteTemplate id s).1.
Proof.
  intros Hs. unfold DeleteTemplate.
  destruct (find_template id (templates s)); [| exact Hs].
  destruct (existsb _ _); exact Hs.
Qed.

Lemma Restart_counts (ts : list Task) :
  forall s,
    tasks (List.fold_left load ts s) = tasks s
    /\ NumTasks (List.fold_left load ts s) = NumTasks s + Z.of_nat (length ts)
    /\ NumEnabledTasks (List.fold_left load ts s) = NumEnabledTasks s + enabled_total ts.
Proof.
  induction ts as [|t ts IH]; intros s.
  - cbn. repeat split; lia.
  - cbn [List.fold_left]. destruct (IH (load s t)) as (Ht & Hn & He).
    rewrite Ht, Hn, He. cbn [length enabled_total]. unfold load.
    destruct (is_enabled t); cbn; repeat split; lia.
Qed.

Lemma consistent_Restart (s : State) : consistent s -> consistent (Restart s).
Proof.
  intros (_ & _ & Hnd). unfold Restart.
  match goal with |- consistent (List.fold_left _ _ ?s0) =>
    destruct (Restart_counts (tasks s) s0) as (Ht & Hn & He) end.
  unfold consistent. rewrite Ht, Hn, He. cbn. auto.
Qed.

Section Serving.
Context (unicode_L unicode_N : Z -> bool).

Lemma consistent_handle (r : Request) (s : State) :
  consistent s -> consistent (handle unicode_L unicode_N r s).
Proof.
  intros Hs. destruct r; cbn [handle].
  - by apply consistent_CreateTask.
  - by apply consistent_UpdateTask.
  - by apply consistent_DeleteTask.
  - unfold CreateTemplate. destruct (negb _); [exact Hs |].
    destruct (find_template _ _); exact Hs.
  - by apply consistent_UpdateTemplate.
  - by apply consistent_DeleteTemplate.
  - eapply consistent_core; [apply core_Write | exact Hs].
  - by apply consistent_Restart.
Qed.

Lemma consistent_serve (rs : list Request) :
  forall s, consistent s -> consistent (serve unicode_L unicode_N rs s).
Proof.
  induction rs as [|r rs IH]; intros s Hs; [exact Hs |].
  cbn [serve List.fold_left]. apply IH. by apply consistent_handle.
Qed.

(** C4. After any sequence of requests served from the empty state
    (creating, updating and deleting tasks, also template updates, writes
    and restarts), the statistics are exactly the number of task records
    and the number of those whose status is enabled. *)
Theorem Stats_count_tasks (rs : list Request) :
  Stats (serve unicode_L unicode_N rs Server.empty)
  = (Z.of_nat (length (tasks (serve unicode_L unicode_N rs Server.empty))),
     Z.of_nat (length (List.filter is_enabled
                         (tasks (serve unicode_L unicode_N rs Server.empty))))).
Proof.
  destruct (consistent_serve rs Server.empty consistent_empty) as (Hn & He & _).
  unfold Stats. by rewrite Hn, He, enabled_total_filter.
Qed.

End Serving.
End Statistics.

(** ** Updating a template *)
Section Templates.
Import Pipeline TICK Server Counts Scenarios.







(** The same update, evaluated: the error of the test, the state kept, and
    the five tasks still showing [tickCorrect]. *)
Lemma UpdateTemplate_rollback_scenario :
  UpdateTemplate "testStreamTemplate" tickNewVar rollback_state
  = (rollback_state,
     inr (Msg ("error reloading associated task testStreamTask-0: missing value for var "
               +:+ Render.quote "period" +:+ ".")))
  /\ List.map ID (tasks rollback_state) = rollback_ids
  /\ List.map TICKscript (tasks rollback_state)
     = List.map (fun _ => text tickCorrect) rollback_ids.
Proof.
  unfold UpdateTemplate.
  replace (find_template "testStreamTemplate" (templates rollback_state))
    with (Some (mkTemplate "testStreamTemplate" StreamTask tickCorrect)) by reflexivity.
  replace (reload_all tickNewVar
             (List.filter (linked "testStreamTemplate") (tasks rollback_state)))
    with (inr (A := list Task)
            (Msg ("error reloading associated task testStreamTask-0: missing value for var "
                  +:+ Render.quote "period" +:+ "."))) by (vm_compute; reflexivity).
  repeat split; vm_compute; reflexivity.
Qed.

End Templates.

(** ** Creating tasks *)
Section Creation.
Import Pipeline TICK Server Counts Scenarios.
Context (unicode_L unicode_N : Z -> bool).




(** The ids of [TestServer_CreateTask_ValidIDs]: five are valid, three are
    refused with the message of the test. *)
Lemma CreateTask_ValidIDs_scenario :
  List.map (ID.valid_id unicode_L unicode_N)
    ["task_id"; "task_id7"; "task.id7"; "task-id7"; task_a_acute;
     "invalid id"; "invalid*id"; "task/id7"]
  = [true; true; true; true; true; false; false; false]
  /\ (CreateTask unicode_L unicode_N (script_task "invalid id" tick_from Disabled)
        Server.empty).2
     = inr (Msg ("task ID must contain only letters, numbers, '-', '.' and '_'. "
                 +:+ Render.quote "invalid id")).
Proof. split; reflexivity. Qed.

(** The first declared variable that lacks a value is the one reported. *)
Lemma missing_var_first (pre rest : list VarDecl) (d : VarDecl) (vars : gmap string Var) :
  (forall x, List.In x pre -> d_default x <> None \/ vars !! d_name x <> None) ->
  d_default d = None ->
  vars !! d_name d = None ->
  missing_var (pre ++ d :: rest) vars = Some (d_name d).
Proof.
  intros Hpre Hd Hv. induction pre as [|x pre IH]; cbn [missing_var app].
  - by rewrite Hd, Hv.
  - destruct (Hpre x (or_introl eq_refl)) as [Hx | Hx].
    + destruct (d_default x); [| done]. apply IH. intros y Hy. apply Hpre. by right.
    + destruct (d_default x); [apply IH; intros y Hy; apply Hpre; by right |].
      destruct (vars !! d_name x); [| done]. apply IH. intros y Hy. apply Hpre. by right.
Qed.

(** C6. Creating a task (valid, free id) linked to a template whose script
    declares a variable without default, the task giving no value for it
    (and the declarations before it, if any, being satisfied), fails with
    exactly "invalid TICKscript: missing value for var <name>." with the
    name between double quotes, and leaves the state as it was: the task
    is not created. *)
Theorem CreateTask_missing_var (o : CreateTaskOptions) (s : State) (tp : Template)
    (pre rest : list VarDecl) (name : string) (ty : VarType) :
  ID.valid_id unicode_L unicode_N (o_ID o) = true ->
  find_task (o_ID o) (tasks s) = None ->
  o_TemplateID o <> "" ->
  find_template (o_TemplateID o) (templates s) = Some tp ->
  decls (tp_script tp) = pre ++ mkVarDecl name ty None :: rest ->
  (forall x, List.In x pre -> d_default x <> None \/ o_Vars o !! d_name x <> None) ->
  o_Vars o !! name = None ->
  CreateTask unicode_L unicode_N o s
  = (s, inr (Msg ("invalid TICKscript: missing value for var "
                  +:+ Render.quote name +:+ ".")))
  /\ find_task (o_ID o) (tasks (CreateTask unicode_L unicode_N o s).1) = None.
Proof.
  intros Hid Hfree Htpl Hfind Hdecls Hpre Hvar.
  assert (Hres : CreateTask unicode_L unicode_N o s
                 = (s, inr (Msg ("invalid TICKscript: missing value for var "
                                 +:+ Render.quote name +:+ ".")))).
  { unfold CreateTask, source_of. rewrite Hid, Hfree. cbn [negb].
    destruct (o_TemplateID o) as [|c rest'] eqn:Ht; [done |]. cbn [Pushover.is_empty].
    rewrite Hfind. unfold materialize. rewrite Hdecls.
    rewrite (missing_var_first pre rest (mkVarDecl name ty None)); auto. }
  split; [exact Hres |]. rewrite Hres. exact Hfree.
Qed.

End Creation.

(** [TestServer_StreamTemplateTask_MissingVar]: the template declares
    [var field string] and the task gives no variable. *)
Lemma CreateTask_missing_var_witness :
  Server.CreateTask Scenarios.no_table Scenarios.no_table
    (Scenarios.template_task "testStreamTask" ∅)
    (Server.CreateTemplate Scenarios.no_table Scenarios.no_table "testStreamTemplate"
       Server.StreamTask Scenarios.tickCorrect Server.empty).1
  = ((Server.CreateTemplate Scenarios.no_table Scenarios.no_table "testStreamTemplate"
        Server.StreamTask Scenarios.tickCorrect Server.empty).1,
     inr (Server.Msg ("invalid TICKscript: missing value for var "
                      +:+ Render.quote "field" +:+ ".")))
  /\ Server.find_task "testStreamTask"
       (Server.tasks
          (Server.CreateTask Scenarios.no_table Scenarios.no_table
             (Scenarios.template_task "testStreamTask" ∅)
             (Server.CreateTemplate Scenarios.no_table Scenarios.no_table
                "testStreamTemplate" Server.StreamTask Scenarios.tickCorrect
                Server.empty).1).1) = None.
Proof.
  apply (CreateTask_missing_var Scenarios.no_table Scenarios.no_table
           (Scenarios.template_task "testStreamTask" ∅)
           (Server.CreateTemplate Scenarios.no_table Scenarios.no_table
              "testStreamTemplate" Server.StreamTask Scenarios.tickCorrect Server.empty).1
           (Server.mkTemplate "testStreamTemplate" Server.StreamTask Scenarios.tickCorrect)
           [] [] "field" TICK.VarString).
  - reflexivity.
  - reflexivity.
  - discriminate.
  - reflexivity.
  - reflexivity.
  - intros x [].
  - reflexivity.
Defined.

(** ** Running tasks: the stream count and the anonymous alert topic *)
Section Running.
Import AlertLevel Pipeline TICK Server Counts Scenarios.
Context (unicode_L unicode_N : Z -> bool) (format_float : Q -> string).

(** [count] turns a batch into one point, stamped with the end of the
    batch, carrying the tags of the group and the number of points that
    have the field. *)
Lemma count_single_point (field : string) (st : NodeState) (b : Batch) :
  node_step (CountNode field) st (MBatch b)
  = (st,
     [MPoint {| Name := BName b; Tags := BTags b;
                Fields := [("count",
                            FInt (Z.of_nat (length (List.filter (has_field field)
                                                      (Points b)))))];
                Time := TMax b |}],
     []).
Proof. reflexivity. Qed.


(** Stopping a task closes each of its anonymous topics: listing the
    events of one then fails with the message of the spec. *)
Lemma stop_closes_topics (t : Task) (s : State) (name : string) :
  List.In name (anon_topics (ID t) 1 (nodes t)) ->
  ListTopicEvents name (stop t s) = inr (Msg (topic_missing_message name)).
Proof.
  intros Hin. unfold ListTopicEvents, stop. cbn [topics set_topics].
  induction (anon_topics (ID t) 1 (nodes t)) as [|x l IH]; [destruct Hin |].
  cbn [List.fold_right]. destruct (decide (x = name)) as [->|Hne].
  - by rewrite lookup_delete_eq.
  - rewrite lookup_delete_ne by done. destruct Hin as [? | Hin]; [done |]. by apply IH.
Qed.

(** Starting a task opens each of its anonymous topics with the events
    the store holds for it. *)
Lemma start_opens_topics (t : Task) (s : State) (name : string) :
  List.In name (anon_topics (ID t) 1 (nodes t)) ->
  ListTopicEvents name (start t s)
  = inl (map_to_list (default ∅ (topic_store s !! name))).
Proof.
  intros Hin. unfold ListTopicEvents, start. cbn [topics set_topics].
  induction (anon_topics (ID t) 1 (nodes t)) as [|x l IH]; [destruct Hin |].
  cbn [List.fold_right]. destruct (decide (x = name)) as [->|Hne].
  - by rewrite lookup_insert_eq.
  - rewrite lookup_insert_ne by done. destruct Hin as [? | Hin]; [done |]. by apply IH.
Qed.


End Running.

(** ** The document of an [httpOut] endpoint *)
Section HTTPOut.
Import Pipeline TICK Server Counts Endpoints Scenarios.


Lemma tag_events_app (k : Z) (a b : list (string * EventState)) :
  tag_events k (a ++ b) = tag_events k a ++ tag_events k b.
Proof. apply List.map_app. Qed.



Section Encoder.
Context (format_float : Q -> string).


End Encoder.











Section Latest.
Context (format_float : Q -> string).


End Latest.
End HTTPOut.


(** ** Patching a handler *)
Section HandlerPatch.
Import JSON Handlers Scenarios.
Context (unicode_L unicode_N : Z -> bool).

Lemma read_strings_Str (l : list string) : read_strings (List.map Str l) = Some l.
Proof. induction l as [|x l IH]; [reflexivity |]. cbn. by rewrite IH. Qed.

Lemma read_action_document (a : HandlerAction) : read_action (action_document a) = Some a.
Proof. by destruct a. Qed.

Lemma read_actions_document (l : list HandlerAction) :
  read_actions (List.map action_document l) = Some l.
Proof.
  induction l as [|a l IH]; [reflexivity |].
  cbn [List.map read_actions]. by rewrite read_action_document, IH.
Qed.

(** Reading the document of a handler gives the handler back. *)
Lemma read_handler_document (h : Handler) : read_handler (document h) = Some h.
Proof.
  destruct h as [id topics actions]. unfold document, read_handler. cbn.
  by rewrite read_strings_Str, read_actions_document.
Qed.

Lemma apply_at_member (op : Op) (tok next : string) (rest : list string)
    (ms : list (string * Value)) (child : Value) :
  member tok ms = Some child ->
  apply_at op (tok :: next :: rest) (Object ms)
  = option_map (fun child' => Object (set_member tok child' ms))
      (apply_at op (next :: rest) child).
Proof. intros H. cbn [apply_at]. by rewrite H. Qed.

Lemma apply_at_first (op : Op) (next : string) (rest : list string)
    (x : Value) (l : list Value) :
  apply_at op ("0" :: next :: rest) (Array (x :: l))
  = option_map (fun x' => Array (x' :: l)) (apply_at op (next :: rest) x).
Proof.
  cbn [apply_at]. replace (index "0") with (Some O) by reflexivity.
  cbn [List.nth_error]. by destruct (apply_at op (next :: rest) x).
Qed.

Lemma apply_last_replace (tok : string) (v old : Value) (ms : list (string * Value)) :
  member tok ms = Some old ->
  apply_at (Replace v) [tok] (Object ms) = Some (Object (set_member tok v ms)).
Proof. intros H. cbn [apply_at apply_last]. by rewrite H. Qed.

(** A PATCH on a stored handler applies remove, replace and add. If
    the handler has at least one topic and its first action has a channel
    option, the patch that removes [/topics/0] and replaces
    [/actions/0/options/channel] succeeds: the patched handler has the
    topics that followed the first one and the new channel in its first
    action, while its id, the kind and the other options of that action and
    the actions after it are unchanged. The patch that adds a topic at
    [/topics/-] puts it at the end of the topics and changes nothing else.
    In both cases the handlers of other ids are left as they were. *)
Theorem PatchHandler_operations (hs : list Handler) (h : Handler) :
  find_handler (ID h) hs = Some h ->
  ID.valid_id unicode_L unicode_N (ID h) = true ->
  (forall (topic : string) (topics : list string) (a : HandlerAction)
          (actions : list HandlerAction) (old : Value) (channel : string),
     Topics h = topic :: topics ->
     Actions h = a :: actions ->
     member "channel" (Options a) = Some old ->
     let h' := {| ID := ID h;
                  Topics := topics;
                  Actions :=
                    {| Kind := Kind a;
                       Options := set_member "channel" (Str channel) (Options a) |}
                    :: actions |} in
     PatchHandler unicode_L unicode_N (ID h)
       [mkOperation "/topics/0" Remove;
        mkOperation "/actions/0/options/channel" (Replace (Str channel))] hs
     = (List.map (fun x => if String.eqb (ID x) (ID h) then h' else x) hs, inl h'))
  /\ (forall topic : string,
        let h' := {| ID := ID h; Topics := Topics h ++ [topic]; Actions := Actions h |} in
        PatchHandler unicode_L unicode_N (ID h)
          [mkOperation "/topics/-" (Add (Str topic))] hs
        = (List.map (fun x => if String.eqb (ID x) (ID h) then h' else x) hs, inl h')).
Proof.
  intros Hfind Hvalid. split.
  - intros topic topics a actions old channel Htopics Hactions Hchannel h'.
    unfold PatchHandler.
    rewrite Hfind. destruct h as [id tps acts]. destruct a as [kind opts].
    cbn [ID Topics Actions Kind Options] in *. subst tps acts.
    assert (Hpatch :
      apply_patch
        [mkOperation "/topics/0" Remove;
         mkOperation "/actions/0/options/channel" (Replace (Str channel))]
        (document (mkHandler id (topic :: topics) (mkHandlerAction kind opts :: actions)))
      = Some (document h')).
    { unfold apply_patch, apply_operation. cbn [Path Operation_].
      replace (parse_pointer "/topics/0") with (Some ["topics"; "0"]) by reflexivity.
      replace (parse_pointer "/actions/0/options/channel")
        with (Some ["actions"; "0"; "options"; "channel"]) by reflexivity.
      unfold document at 1. cbn [ID Topics Actions List.map].
      erewrite (apply_at_member Remove "topics" "0" []) by reflexivity.
      replace (apply_at Remove ["0"] (Array (Str topic :: List.map Str topics)))
        with (Some (Array (List.map Str topics))) by reflexivity.
      cbn [option_map].
      erewrite (apply_at_member (Replace (Str channel)) "actions" "0"
                  ["options"; "channel"]) by reflexivity.
      rewrite apply_at_first. unfold action_document. cbn [Kind Options].
      erewrite (apply_at_member (Replace (Str channel)) "options" "channel" [])
        by reflexivity.
      rewrite (apply_last_replace "channel" (Str channel) old opts Hchannel).
      reflexivity. }
    rewrite Hpatch, read_handler_document. subst h'. cbn [ID]. by rewrite Hvalid.
  - intros topic h'. unfold PatchHandler. rewrite Hfind.
    assert (Hpatch : apply_patch [mkOperation "/topics/-" (Add (Str topic))] (document h)
                     = Some (document h')).
    { unfold apply_patch, apply_operation. cbn [Path Operation_].
      replace (parse_pointer "/topics/-") with (Some ["topics"; "-"]) by reflexivity.
      unfold document at 1.
      erewrite (apply_at_member (Add (Str topic)) "topics" "-" []) by reflexivity.
      cbn [apply_at apply_last]. replace (String.eqb "-" "-") with true by reflexivity.
      cbn [option_map]. unfold document, h'. cbn [ID Topics Actions].
      by rewrite List.map_app. }
    rewrite Hpatch, read_handler_document. subst h'. cbn [ID]. by rewrite Hvalid.
Qed.

End HandlerPatch.

(** The first handler of [TestServer_AlertHandlers_CRUD]: its patch gives
    the topics [test] and the channel #kapacitor_test; a topic added at
    [/topics/-] comes last. *)
Lemma PatchHandler_operations_witness :
  (forall (topic : string) (topics : list string) (a : Handlers.HandlerAction)
          (actions : list Handlers.HandlerAction) (old : JSON.Value) (channel : string),
     Handlers.Topics Scenarios.myhandler = topic :: topics ->
     Handlers.Actions Scenarios.myhandler = a :: actions ->
     JSON.member "channel" (Handlers.Options a) = Some old ->
     let h' := {| Handlers.ID := Handlers.ID Scenarios.myhandler;
                  Handlers.Topics := topics;
                  Handlers.Actions :=
                    {| Handlers.Kind := Handlers.Kind a;
                       Handlers.Options :=
                         JSON.set_member "channel" (JSON.Str channel) (Handlers.Options a) |}
                    :: actions |} in
     Handlers.PatchHandler Scenarios.no_table Scenarios.no_table
       (Handlers.ID Scenarios.myhandler)
       [JSON.mkOperation "/topics/0" JSON.Remove;
        JSON.mkOperation "/actions/0/options/channel" (JSON.Replace (JSON.Str channel))]
       [Scenarios.myhandler]
     = (List.map (fun x => if String.eqb (Handlers.ID x) (Handlers.ID Scenarios.myhandler)
                           then h' else x) [Scenarios.myhandler], inl h'))
  /\ (forall topic : string,
        let h' := {| Handlers.ID := Handlers.ID Scenarios.myhandler;
                     Handlers.Topics := Handlers.Topics Scenarios.myhandler ++ [topic];
                     Handlers.Actions := Handlers.Actions Scenarios.myhandler |} in
        Handlers.PatchHandler Scenarios.no_table Scenarios.no_table
          (Handlers.ID Scenarios.myhandler)
          [JSON.mkOperation "/topics/-" (JSON.Add (JSON.Str topic))] [Scenarios.myhandler]
        = (List.map (fun x => if String.eqb (Handlers.ID x)
                                   (Handlers.ID Scenarios.myhandler)
                              then h' else x) [Scenarios.myhandler], inl h')).
Proof.
  apply (PatchHandler_operations Scenarios.no_table Scenarios.no_table
           [Scenarios.myhandler] Scenarios.myhandler).
  - reflexivity.
  - reflexivity.
Defined.




(** Both handlers of the test, created and patched: the first patch
    removes and replaces, the second adds at the end of the topics and of
    the actions ("/-") and replaces. *)
Lemma AlertHandlers_patch_scenario :
  (Handlers.PatchHandler Scenarios.no_table Scenarios.no_table "myhandler"
     Scenarios.myhandler_patch
     (Handlers.CreateHandler Scenarios.no_table Scenarios.no_table
        Scenarios.myhandler []).1).2
  = inl {| Handlers.ID := "myhandler";
           Handlers.Topics := ["test"];
           Handlers.Actions :=
             [{| Handlers.Kind := "slack";
                 Handlers.Options := [("channel", JSON.Str "#kapacitor_test")] |}] |}
  /\ (Handlers.PatchHandler Scenarios.no_table Scenarios.no_table "anotherhandler"
        Scenarios.anotherhandler_patch
        (Handlers.CreateHandler Scenarios.no_table Scenarios.no_table
           Scenarios.anotherhandler []).1).2
     = inl {| Handlers.ID := "anotherhandler";
              Handlers.Topics := ["test"; "system"];
              Handlers.Actions :=
                [{| Handlers.Kind := "slack";
                    Handlers.Options := [("channel", JSON.Str "#kapacitor_test")] |};
                 {| Handlers.Kind := "log";
                    Handlers.Options := [("path", JSON.Str "/tmp/alert.log")] |};
                 {| Handlers.Kind := "smtp";
                    Handlers.Options :=
                      [("to", JSON.Array [JSON.Str "oncall@example.com"])] |}] |}.
Proof. split; vm_compute; reflexivity. Qed.

(* ===================================================================== *)
(** * Further properties of the Pushover service and of its test double *)
(* ===================================================================== *)

Section ServiceUpdate.
Import Strconv AlertLevel Pushover PushoverService.

(** X1. [Update] stores the new configuration exactly when it is given one
    element and this element is a [Config]; in every other case it returns
    an error and the service keeps the configuration it had. A list of
    another length (the empty one too) is refused with the message that
    gives its length. *)
Theorem Update_outcome (newConfig : list Any) (s : Service) :
  match newConfig with
  | [AnyConfig c] => Update newConfig s = (NewService c, None)
  | [AnyOther type_name] =>
      Update newConfig s
      = (s, Some ("expected config object to be of type pushover.Config, got "
                  +:+ type_name))
  | _ =>
      Update newConfig s
      = (s, Some ("expected only one new config object, got "
                  +:+ Itoa (Z.of_nat (length newConfig))))
  end.
Proof.
  destruct newConfig as [|[c|ty] [|y rest]]; reflexivity.
Qed.

Lemma Update_step (newConfig : list Any) (s : Service) :
  (Update newConfig s).1
  = match newConfig with
    | [AnyConfig c] => NewService c
    | _ => s
    end.
Proof. destruct newConfig as [|[c|ty] [|y rest]]; reflexivity. Qed.

(** X2. After any sequence of [Update] calls the service holds the
    configuration of the last call that gave exactly one [Config], and the
    one it was created with if there was no such call: a refused update
    never changes what [config] returns. *)
Theorem Updates_last_config (calls : list (list Any)) (c0 : Config) :
  config (Updates calls (NewService c0)) = last_config calls c0.
Proof.
  unfold Updates. revert c0.
  induction calls as [|newConfig calls IH]; intros c0; [reflexivity |].
  cbn [List.fold_left].
  pose proof (Update_step newConfig (NewService c0)) as Hstep.
  destruct newConfig as [|[c|ty] [|y rest]]; cbn [last_config];
    rewrite Hstep; apply IH.
Qed.

End ServiceUpdate.

Section FormValues.
Import Strconv AlertLevel Pushover.

Lemma lookup_Values_Set (k k' value : string) (v : gmap string (list string)) :
  Values_Set k value v !! k' = if decide (k = k') then Some [value] else v !! k'.
Proof.
  unfold Values_Set. case_decide as Hk.
  - subst k'. by rewrite lookup_insert_eq.
  - by rewrite lookup_insert_ne.
Qed.

Lemma lookup_set_if_nonempty (k k' value : string) (v : gmap string (list string)) :
  set_if_nonempty k value v !! k'
  = if decide (k = k') then (if is_empty value then v !! k' else Some [value])
    else v !! k'.
Proof.
  unfold set_if_nonempty. destruct (is_empty value).
  - by case_decide.
  - apply lookup_Values_Set.
Qed.

Context {Time : Type} (Time_String : Time -> string).

(** X3. The form that [Values] builds has exactly one value under token,
    user, message and priority, whatever these fields hold (an empty token
    is still sent); it has device, title, url, url_title and sound exactly
    when the field is not empty, and timestamp exactly when a time stamp is
    set; it never has another key, and never two values under one key. *)
Theorem Values_keys (p : postData Time) :
  Values_of Time_String p !! "token" = Some [pd_Token p]
  /\ Values_of Time_String p !! "user" = Some [pd_User p]
  /\ Values_of Time_String p !! "message" = Some [pd_Message p]
  /\ Values_of Time_String p !! "priority" = Some [Itoa (pd_Priority p)]
  /\ Values_of Time_String p !! "device"
     = (if is_empty (pd_Device p) then None else Some [pd_Device p])
  /\ Values_of Time_String p !! "title"
     = (if is_empty (pd_Title p) then None else Some [pd_Title p])
  /\ Values_of Time_String p !! "url"
     = (if is_empty (pd_URL p) then None else Some [pd_URL p])
  /\ Values_of Time_String p !! "url_title"
     = (if is_empty (pd_URLTitle p) then None else Some [pd_URLTitle p])
  /\ Values_of Time_String p !! "sound"
     = (if is_empty (pd_Sound p) then None else Some [pd_Sound p])
  /\ Values_of Time_String p !! "timestamp"
     = option_map (fun t => [Time_String t]) (pd_Timestamp p)
  /\ forall k,
       ~ List.In k ["token"; "user"; "message"; "priority"; "device"; "title"; "url";
                    "url_title"; "sound"; "timestamp"] ->
       Values_of Time_String p !! k = None.
Proof.
  unfold Values_of. cbv zeta.
  split_and!;
    try (destruct (pd_Timestamp p) as [t|];
         repeat (rewrite lookup_Values_Set || rewrite lookup_set_if_nonempty);
         repeat (case_decide; try (discriminate || congruence));
         rewrite ?lookup_empty; reflexivity).
  intros k Hk. cbn [List.In] in Hk.
  destruct (pd_Timestamp p) as [t|];
    repeat (rewrite lookup_Values_Set || rewrite lookup_set_if_nonempty);
    repeat (case_decide; [exfalso; tauto |]); apply lookup_empty.
Qed.

End FormValues.

Section Posting.
Import Strconv AlertLevel Pushover.
Context {Time : Type} (Time_String : Time -> string).
Context (http_PostForm : string -> gmap string (list string) -> Response + string)
        (json_error_field : string -> option string).

Lemma priority_is_int (level : Level) : is_int (priority level).
Proof.
  unfold is_int, minInt, maxInt, intSize.
  destruct level; cbn [priority]; split; (apply Z.leb_le; reflexivity).
Qed.

(** X4. The priority sent is within the range -2..2 of the Pushover API,
    it is never the default 0, and two levels never share a priority: the
    receiver can tell the level of an alert from its priority. *)
Theorem priority_distinct :
  (forall level, -2 <= priority level <= 2 /\ priority level <> 0)
  /\ (forall l1 l2, priority l1 = priority l2 -> l1 = l2).
Proof.
  split.
  - intros level. destruct level; cbn [priority]; lia.
  - intros l1 l2. destruct l1, l2; cbn [priority]; intros H; try reflexivity; lia.
Qed.

(** X5. When the service is enabled, [preparePost] answers the URL of the
    configuration and a form that the test double decodes without error
    into: the token of the configuration, the user given (the one of the
    configuration when none is given), the message, device, title, URL, URL
    title and sound as they were passed, the priority of the level, and the
    time of the call as time stamp if one was asked for (none otherwise). *)
Theorem preparePost_decoded (c : Config) (now : Time)
    (user message device title url urlTitle sound : string)
    (timestamp : bool) (level : Level) :
  Enabled c = true ->
  let '(target, form, err) :=
    preparePost Time_String c now user message device title url urlTitle sound
      timestamp level in
  target = Pushover.URL c
  /\ err = None
  /\ Pushovertest.NewPostData form
     = ({| Pushovertest.Token := Pushover.Token c;
           Pushovertest.User := if is_empty user then Pushover.User c else user;
           Pushovertest.Message := message;
           Pushovertest.Device := device;
           Pushovertest.Title := title;
           Pushovertest.URL := url;
           Pushovertest.URLTitle := urlTitle;
           Pushovertest.Sound := sound;
           Pushovertest.Timestamp := if timestamp then Time_String now else "";
           Pushovertest.Priority := priority level |}, None).
Proof.
  intros Hen. unfold preparePost. rewrite Hen. cbn [negb].
  split; [reflexivity |]. split; [reflexivity |].
  unfold Pushovertest.NewPostData.
  match goal with |- context [Values_of Time_String ?p] =>
    destruct (Values_of_Get Time_String p)
      as (-> & -> & -> & -> & -> & -> & -> & -> & -> & ->) end.
  cbn [pd_Priority pd_Token pd_User pd_Message pd_Device pd_Title pd_URL pd_URLTitle
       pd_Sound pd_Timestamp].
  rewrite (Atoi_Itoa _ (priority_is_int level)).
  by destruct timestamp.
Qed.

(** X6. When the service is enabled, [Alert] performs exactly one HTTP
    request, to the URL of the configuration and with the form of
    [preparePost], whatever comes back (it does not try again); and it
    returns no error exactly when the request got a response of status
    200. *)
Theorem Alert_one_request (c : Config) (now : Time)
    (user message device title url urlTitle sound : string)
    (timestamp : bool) (level : Level) :
  Enabled c = true ->
  let form :=
    (preparePost Time_String c now user message device title url urlTitle sound
       timestamp level).1.2 in
  let result :=
    Alert Time_String http_PostForm json_error_field c now user message device title
      url urlTitle sound timestamp level in
  result.1 = [(Pushover.URL c, form)]
  /\ (result.2 = None
      <-> exists resp, http_PostForm (Pushover.URL c) form = inl resp
                       /\ StatusCode resp = 200).
Proof.
  intros Hen form result. subst form result. unfold Alert, preparePost.
  rewrite Hen. cbn [negb fst snd].
  destruct (http_PostForm _ _) as [resp|err] eqn:Hpost; cbn [fst snd].
  - destruct (Z.eqb_spec (StatusCode resp) 200) as [H200|Hne]; cbn [fst snd].
    + split; [reflexivity |]. split; [eauto | reflexivity].
    + destruct (Body resp) as [body|err]; cbn [fst snd]; (split; [reflexivity |]);
        (split; [discriminate | intros (r & [= <-] & H); contradiction]).
  - split; [reflexivity |]. split; [discriminate | intros (r & Hr & _); discriminate].
Qed.

End Posting.

(** A critical alert with a time stamp, prepared by an enabled service. *)
Lemma preparePost_decoded_witness :
  let '(target, form, err) :=
    Pushover.preparePost Strconv.Itoa (Pushover.mkConfig true "tok" "usr" "http://push")
      42 "" "msg" "phone" "" "" "" "siren" true AlertLevel.Critical in
  target = "http://push"
  /\ err = None
  /\ Pushovertest.NewPostData form
     = ({| Pushovertest.Token := "tok"; Pushovertest.User := "usr";
           Pushovertest.Message := "msg"; Pushovertest.Device := "phone";
           Pushovertest.Title := ""; Pushovertest.URL := "";
           Pushovertest.URLTitle := ""; Pushovertest.Sound := "siren";
           Pushovertest.Timestamp := "42"; Pushovertest.Priority := 2 |}, None).
Proof.
  apply (preparePost_decoded Strconv.Itoa (Pushover.mkConfig true "tok" "usr" "http://push")
           42 "" "msg" "phone" "" "" "" "siren" true AlertLevel.Critical).
  reflexivity.
Defined.

(** An enabled service in front of a server that answers 200. *)
Lemma Alert_one_request_witness :
  let c := Pushover.mkConfig true "tok" "usr" "http://push" in
  let post := fun (_ : string) (_ : gmap string (list string)) =>
                inl (Pushover.mkResponse 200 (inl "")) : Pushover.Response + string in
  let form :=
    (Pushover.preparePost Strconv.Itoa c 42 "" "msg" "" "" "" "" "" false
       AlertLevel.Warning).1.2 in
  let result :=
    Pushover.Alert Strconv.Itoa post (fun _ => None) c 42 "" "msg" "" "" "" "" "" false
      AlertLevel.Warning in
  result.1 = [("http://push", form)]
  /\ (result.2 = None
      <-> exists resp, post "http://push" form = inl resp
                       /\ Pushover.StatusCode resp = 200).
Proof.
  apply (Alert_one_request Strconv.Itoa
           (fun (_ : string) (_ : gmap string (list string)) =>
              inl (Pushover.mkResponse 200 (inl "")) : Pushover.Response + string)
           (fun _ => None)
           (Pushover.mkConfig true "tok" "usr" "http://push")
           42 "" "msg" "" "" "" "" "" false AlertLevel.Warning).
  reflexivity.
Defined.

Section ServiceCalls.
Import Strconv AlertLevel Pushover PushoverService.
Context {Time : Type} (Time_String : Time -> string).
Context (http_PostForm : string -> gmap string (list string) -> Response + string)
        (json_error_field : string -> option string).

(** X7. The self-test of an enabled service with the options that
    [TestOptions] proposes performs one request, to the configured URL,
    whose form is exactly: the configured token, the configured user, the
    message "test pushover message" and the priority 2 of a critical
    alert, with no device, title, URL, sound or time stamp. Called with
    options of another type, [Test] performs no request and returns an
    error. *)
Theorem Test_default_request (s : Service) (now : Time) :
  Enabled (config s) = true ->
  (Test Time_String http_PostForm json_error_field s now
     (IsTestOptions (TestOptions s))).1
  = [(Pushover.URL (config s),
      <["priority" := ["2"]]>
        (<["message" := ["test pushover message"]]>
           (<["user" := [Pushover.User (config s)]]>
              (<["token" := [Pushover.Token (config s)]]> ∅))))]
  /\ forall printed,
       Test Time_String http_PostForm json_error_field s now (OtherOptions printed)
       = ([], Some ("unexpected options type " +:+ printed)).
Proof.
  intros Hen. split; [| reflexivity].
  unfold Test, Service_Alert, TestOptions, Alert, preparePost.
  cbn [to_User to_Message to_Device to_Title to_URL to_URLTitle to_Sound to_Timestamp
       to_Level].
  rewrite Hen. cbn [negb].
  assert (Huser : (if is_empty (Pushover.User (config s)) then Pushover.User (config s)
                   else Pushover.User (config s)) = Pushover.User (config s))
    by (by destruct (is_empty _)).
  rewrite Huser.
  destruct (http_PostForm _ _) as [resp|err]; [| reflexivity].
  destruct (StatusCode resp =? 200); [reflexivity |].
  by destruct (Body resp).
Qed.

(** X8. [Handle] never fails: with a disabled service it performs no
    request and gives the logger the one line "E! failed to send event to
    Pushover service is not enabled"; with an enabled one it performs one
    request, to the configured URL, whose form carries the configured
    token, the message of the event, the priority of its level and the user
    of the handler (the configured one when the handler names none), and it
    logs at most one line. The configuration is the one the service holds
    when the event is handled. *)
Theorem Handle_outcome (s : Service) (hc : HandlerConfig) (now : Time) (event : Event) :
  if Enabled (config s) then
    exists form,
      (Handle Time_String http_PostForm json_error_field s hc now event).1
      = [(Pushover.URL (config s), form)]
      /\ Values_Get form "token" = Pushover.Token (config s)
      /\ Values_Get form "message" = State_Message event
      /\ Values_Get form "priority" = Itoa (priority (State_Level event))
      /\ Values_Get form "user"
         = (if is_empty (hc_User hc) then Pushover.User (config s) else hc_User hc)
      /\ (length (Handle Time_String http_PostForm json_error_field s hc now event).2
          <= 1)%nat
  else
    Handle Time_String http_PostForm json_error_field s hc now event
    = ([], ["E! failed to send event to Pushover service is not enabled"]).
Proof.
  unfold Handle, Service_Alert, Alert, preparePost.
  destruct (Enabled (config s)); cbn [negb]; [| reflexivity].
  match goal with |- context [Values_of Time_String ?p] =>
    exists (Values_of Time_String p);
    destruct (Values_of_Get Time_String p) as (Ht & Hu & Hm & Hp & _) end.
  cbn [pd_Token pd_User pd_Message pd_Priority] in *.
  split_and!; try assumption.
  - destruct (http_PostForm _ _) as [resp|err]; [| reflexivity].
    destruct (StatusCode resp =? 200); [reflexivity |].
    by destruct (Body resp).
  - destruct (http_PostForm _ _) as [resp|err]; [| cbn; lia].
    destruct (StatusCode resp =? 200); [cbn; lia |].
    destruct (Body resp); cbn; lia.
Qed.

End ServiceCalls.

(** The self-test of an enabled service. *)
Lemma Test_default_request_witness :
  (PushoverService.Test Strconv.Itoa
     (fun (_ : string) (_ : gmap string (list string)) =>
        inl (Pushover.mkResponse 200 (inl "")) : Pushover.Response + string)
     (fun _ => None)
     (PushoverService.NewService (Pushover.mkConfig true "tok" "usr" "http://push")) 42
     (PushoverService.IsTestOptions
        (PushoverService.TestOptions
           (PushoverService.NewService (Pushover.mkConfig true "tok" "usr" "http://push"))))).1
  = [("http://push",
      <["priority" := ["2"]]>
        (<["message" := ["test pushover message"]]>
           (<["user" := ["usr"]]> (<["token" := ["tok"]]> ∅))))]
  /\ forall printed,
       PushoverService.Test Strconv.Itoa
         (fun (_ : string) (_ : gmap string (list string)) =>
            inl (Pushover.mkResponse 200 (inl "")) : Pushover.Response + string)
         (fun _ => None)
         (PushoverService.NewService (Pushover.mkConfig true "tok" "usr" "http://push")) 42
         (PushoverService.OtherOptions printed)
       = ([], Some ("unexpected options type " +:+ printed)).
Proof.
  apply (Test_default_request Strconv.Itoa
           (fun (_ : string) (_ : gmap string (list string)) =>
              inl (Pushover.mkResponse 200 (inl "")) : Pushover.Response + string)
           (fun _ => None)
           (PushoverService.NewService (Pushover.mkConfig true "tok" "usr" "http://push"))
           42).
  reflexivity.
Defined.

Section TestDouble.
Import Strconv Pushover Pushovertest PushovertestServer.

(** X9. A form whose priority is missing (no such key, no value, or an
    empty one), or starts with a byte that is neither a digit nor a sign,
    makes [NewPostData] return the syntax error of [Atoi] on that text,
    together with a [PostData] whose priority is 0 and whose nine text
    fields are nevertheless read from the form. *)
Theorem NewPostData_bad_priority (v : gmap string (list string)) :
  match Values_Get v "priority" with
  | EmptyString => True
  | String c _ => digit_val c = None /\ Ascii.eqb c "+" = false /\ Ascii.eqb c "-" = false
  end ->
  NewPostData v
  = ({| Token := Values_Get v "token";
        User := Values_Get v "user";
        Message := Values_Get v "message";
        Device := Values_Get v "device";
        Title := Values_Get v "title";
        URL := Values_Get v "url";
        URLTitle := Values_Get v "url_title";
        Sound := Values_Get v "sound";
        Timestamp := Values_Get v "timestamp";
        Priority := 0 |},
     Some (ErrSyntax "Atoi" (Values_Get v "priority"))).
Proof.
  intros H. unfold NewPostData, Atoi, ParseInt.
  destruct (Values_Get v "priority") as [|c rest]; [reflexivity |].
  destruct H as (Hd & -> & ->). cbn [orb parse_digits]. by rewrite Hd.
Qed.

Lemma Values_Get_insert_ne (v : gmap string (list string)) (k k' : string)
    (vs : list string) :
  k <> k' -> Values_Get (<[k := vs]> v) k' = Values_Get v k'.
Proof. intros H. unfold Values_Get. by rewrite lookup_insert_ne. Qed.

Lemma Values_Get_delete_ne (v : gmap string (list string)) (k k' : string) :
  k <> k' -> Values_Get (delete k v) k' = Values_Get v k'.
Proof. intros H. unfold Values_Get. by rewrite lookup_delete_ne. Qed.

Lemma Values_Get_more (v : gmap string (list string)) (k k' x : string)
    (more : list string) :
  v !! k = Some (x :: more) -> Values_Get (<[k := [x]]> v) k' = Values_Get v k'.
Proof.
  intros H. unfold Values_Get. destruct (decide (k = k')) as [<-|Hne].
  - by rewrite lookup_insert_eq, H.
  - by rewrite lookup_insert_ne.
Qed.

(** X11. [NewPostData] reads the ten keys of the Pushover form and nothing
    else: setting or deleting any other key of the form does not change
    its result, and neither does dropping the values that follow the first
    one under a key. *)
Theorem NewPostData_reads_ten_keys (v : gmap string (list string)) (k : string) :
  (~ List.In k ["token"; "user"; "message"; "device"; "title"; "url"; "url_title";
                "sound"; "timestamp"; "priority"] ->
   (forall vs, NewPostData (<[k := vs]> v) = NewPostData v)
   /\ NewPostData (delete k v) = NewPostData v)
  /\ (forall x more, v !! k = Some (x :: more) ->
        NewPostData (<[k := [x]]> v) = NewPostData v).
Proof.
  split.
  - intros Hk. cbn [List.In] in Hk. split.
    + intros vs. unfold NewPostData.
      rewrite !Values_Get_insert_ne by (intros ->; tauto). reflexivity.
    + unfold NewPostData.
      rewrite !Values_Get_delete_ne by (intros ->; tauto). reflexivity.
  - intros x more Hv. unfold NewPostData.
    by rewrite !(Values_Get_more v k _ x more Hv).
Qed.

Section Library.
Context (ParseQuery : string -> gmap string (list string) * option string).

Lemma calls_from (cs : list Call) :
  forall s,
    requests (List.fold_left (call ParseQuery) cs s)
    = requests s ++ List.map (recorded ParseQuery) (bodies cs)
    /\ closed (List.fold_left (call ParseQuery) cs s) = closed s || closes cs
    /\ ts_closed (List.fold_left (call ParseQuery) cs s)
       = (ts_closed s + (if negb (closed s) && closes cs then 1 else 0))%nat.
Proof.
  induction cs as [|c cs IH]; intros s.
  - cbn. rewrite List.app_nil_r, orb_false_r, andb_false_r. repeat split; lia.
  - cbn [List.fold_left]. destruct (IH (call ParseQuery s c)) as (Hr & Hc & Ht).
    rewrite Hr, Hc, Ht. destruct c as [data|].
    + cbn [call serve requests closed ts_closed bodies closes existsb List.map orb].
      rewrite <- List.app_assoc. auto.
    + cbn [call bodies closes existsb orb]. unfold Close.
      destruct (closed s) eqn:Hs; cbn [requests closed ts_closed negb andb orb].
      * rewrite Hs. cbn. repeat split; lia.
      * repeat split. cbn. lia.
Qed.

(** X10. Whatever requests arrive and however often [Close] is called, in
    any order, the test server has recorded one entry per request, in the
    order of arrival, each being what [NewPostData] reads from the parsed
    body (also when the body or its priority could not be parsed); and the
    underlying HTTP server has been closed once if [Close] was called at
    all, never twice. *)
Theorem Server_records (cs : list Call) :
  Requests (List.fold_left (call ParseQuery) cs NewServer)
  = List.map (fun data => {| Request_PostData := (NewPostData (ParseQuery data).1).1 |})
      (bodies cs)
  /\ ts_closed (List.fold_left (call ParseQuery) cs NewServer)
     = (if closes cs then 1 else 0)%nat.
Proof.
  destruct (calls_from cs NewServer) as (Hr & _ & Ht).
  unfold Requests. rewrite Hr, Ht. split; reflexivity.
Qed.

End Library.
End TestDouble.

(** A form whose priority is a word. *)
Lemma NewPostData_bad_priority_witness :
  Pushovertest.NewPostData {[ "priority" := ["high"] ]}
  = ({| Pushovertest.Token := Pushover.Values_Get {[ "priority" := ["high"] ]} "token";
        Pushovertest.User := Pushover.Values_Get {[ "priority" := ["high"] ]} "user";
        Pushovertest.Message := Pushover.Values_Get {[ "priority" := ["high"] ]} "message";
        Pushovertest.Device := Pushover.Values_Get {[ "priority" := ["high"] ]} "device";
        Pushovertest.Title := Pushover.Values_Get {[ "priority" := ["high"] ]} "title";
        Pushovertest.URL := Pushover.Values_Get {[ "priority" := ["high"] ]} "url";
        Pushovertest.URLTitle :=
          Pushover.Values_Get {[ "priority" := ["high"] ]} "url_title";
        Pushovertest.Sound := Pushover.Values_Get {[ "priority" := ["high"] ]} "sound";
        Pushovertest.Timestamp :=
          Pushover.Values_Get {[ "priority" := ["high"] ]} "timestamp";
        Pushovertest.Priority := 0 |},
     Some (Strconv.ErrSyntax "Atoi"
             (Pushover.Values_Get {[ "priority" := ["high"] ]} "priority"))).
Proof.
  apply (NewPostData_bad_priority {[ "priority" := ["high"] ]}).
  vm_compute. repeat split.
Defined.
